(** * serve.py: the static file server of the built app

    A shallow embedding of [serve.py] and of the parts of the Python
    runtime it drives: the process (standard output, working directory,
    sockets), the exception discipline ([try]/[except], [with],
    [sys.exit]), and the request handler class hierarchy
    ([http.server.BaseHTTPRequestHandler] with the two methods that
    [MyHTTPRequestHandler] overrides, dispatched through a method table). *)

From Stdlib Require Import ZArith List String Ascii Bool Lia DecimalString.
Import ListNotations.
Open Scope string_scope.
Open Scope list_scope.

(** ** Strings as Python builds them *)

Definition LF : string := String "010"%char "".
Definition CRLF : string := String "013"%char LF.
Definition DQUOTE : string := String "034"%char "".

(** [str(n)] for an integer. *)
Definition str_int (n : Z) : string := NilZero.string_of_int (Z.to_int n).
Arguments str_int : simpl never.

(** [s * n], the repetition of a string. *)
Fixpoint str_mul (s : string) (n : nat) : string :=
  match n with
  | O => ""
  | S n' => (s ++ str_mul s n')%string
  end.

(** [pat in s]. *)
Fixpoint contains (pat s : string) : bool :=
  prefix pat s ||
  match s with
  | EmptyString => false
  | String _ s' => contains pat s'
  end.

(** [s.count(pat)] for a pattern that cannot overlap itself. *)
Fixpoint count (pat s : string) : nat :=
  match s with
  | EmptyString => 0
  | String _ s' => (if prefix pat s then 1 else 0) + count pat s'
  end.

Definition lower_char (c : ascii) : ascii :=
  let n := nat_of_ascii c in
  if (Nat.leb 65 n && Nat.leb n 90)%bool then ascii_of_nat (n + 32) else c.

Fixpoint lower (s : string) : string :=
  match s with
  | EmptyString => EmptyString
  | String c s' => String (lower_char c) (lower s')
  end.

(** The arguments of the [%] operator. *)
Inductive pyval : Type :=
| PStr (s : string)
| PInt (n : Z).

Definition str (v : pyval) : string :=
  match v with
  | PStr s => s
  | PInt n => str_int n
  end.

(** [fmt % args] for the directives the handler uses ([%s], [%d], [%%]);
    [None] is the [TypeError] or [ValueError] the operator raises on a
    missing, surplus or ill-typed argument or an unknown directive. *)
Fixpoint pct (fmt : string) (args : list pyval) : option string :=
  match fmt with
  | EmptyString =>
      match args with
      | [] => Some ""
      | _ :: _ => None
      end
  | String "%"%char (String "s"%char rest) =>
      match args with
      | a :: args' => option_map (append (str a)) (pct rest args')
      | [] => None
      end
  | String "%"%char (String "d"%char rest) =>
      match args with
      | PInt n :: args' => option_map (append (str_int n)) (pct rest args')
      | _ => None
      end
  | String "%"%char (String "%"%char rest) =>
      option_map (String "%"%char) (pct rest args)
  | String "%"%char _ => None
  | String c rest => option_map (String c) (pct rest args)
  end.

(** ** Exceptions *)

Inductive exn : Type :=
| OSError
| FileNotFoundError
| NotADirectoryError
| PermissionError
| TypeError
| KeyboardInterrupt
| SystemExit (code : Z).

(** [isinstance(e, KeyboardInterrupt)]. *)
Definition is_KeyboardInterrupt (e : exn) : bool :=
  match e with
  | KeyboardInterrupt => true
  | _ => false
  end.

(** [isinstance(e, Exception)]: everything but the two exceptions that
    derive from [BaseException] directly. *)
Definition is_Exception (e : exn) : bool :=
  match e with
  | KeyboardInterrupt | SystemExit _ => false
  | _ => true
  end.

(** A bare [except:] clause. *)
Definition any_exception (e : exn) : bool := true.

(** ** The environment of the process *)

(** What a path names. [Directory] is a directory that the process may
    enter; it carries its resolved absolute path, which [os.getcwd]
    reports once the process has moved there. [LockedDirectory] is a
    directory that the process may not enter. *)
Inductive entry : Type :=
| RegularFile
| Directory (abspath : string)
| LockedDirectory.

Inductive family : Type := AF_INET | AF_INET6.
Inductive socktype : Type := SOCK_STREAM | SOCK_DGRAM.

(** How the operating system answers the four socket calls of [get_ip]:
    [None] is success, [Some e] the exception raised there (an [OSError]
    from the network stack, or a [KeyboardInterrupt] delivered while the
    call runs). *)
Record network : Type := mkNetwork {
  on_socket : option exn;
  on_connect : option exn;
  on_getsockname : exn + (string * Z);
  on_close : option exn
}.

(** What [SimpleHTTPRequestHandler] decides to answer, once it has
    translated the path and looked the file up: either
    [send_response(code)], some [send_header] calls, [end_headers()] and
    the body, or [send_error(code, message)] with the rendered error
    page. *)
Inductive reply : Type :=
| Respond (code : Z) (hdrs : list (string * string)) (body : string)
| Fail (code : Z) (message : option string) (page : string).

(** A request as the handler holds it when it answers: [r_version] is
    the [request_version] that [parse_request] has left in the handler,
    which is ["HTTP/0.9"] from the start and until the version of the
    request line has been accepted. *)
Record request : Type := mkRequest {
  r_client : string;
  r_command : string;
  r_line : string;
  r_version : string;
  r_reply : reply
}.

(** What arrives while the server waits in [serve_forever]. *)
Inductive arrival : Type :=
| Incoming (r : request)
| Interrupt.

Record environment : Type := mkEnvironment {
  fs : string -> option entry;
  net : network;
  bind_fails : bool;
  log_date_time : string;
  date_time : string;
  version : string
}.

(** ** The state of the process *)

Inductive syscall : Type :=
| SysChdir (path : string)
| SysSocket (f : family) (t : socktype)
| SysConnect (host : string) (port : Z)
| SysGetsockname
| SysSend (data : string)
| SysClose
| SysBind (host : string) (port : Z)
| SysListen
| SysServerClose.

(** The handler object serving the current connection. *)
Record handler : Type := mkHandler {
  client_address : string;
  command : string;
  requestline : string;
  request_version : string;
  close_connection : bool;
  headers_buffer : list string;
  wfile : list string
}.

(** [stdout] and [stderr] hold one entry per [print] call or write, in
    order; [print] ends each entry with a newline on the stream.
    [wfile] and [sent] hold the fragments written to a client in
    order; the client reads their concatenation. *)
Record world : Type := mkWorld {
  env : environment;
  cwd : string;
  stdout : list string;
  stderr : list string;
  trace : list syscall;
  listeners : list (string * Z);
  pending : list arrival;
  self : handler;
  sent : list (list string)
}.

Definition set_cwd (d : string) (w : world) : world :=
  mkWorld (env w) d (stdout w) (stderr w) (trace w) (listeners w)
          (pending w) (self w) (sent w).
Definition set_stdout (o : list string) (w : world) : world :=
  mkWorld (env w) (cwd w) o (stderr w) (trace w) (listeners w)
          (pending w) (self w) (sent w).
Definition set_stderr (o : list string) (w : world) : world :=
  mkWorld (env w) (cwd w) (stdout w) o (trace w) (listeners w)
          (pending w) (self w) (sent w).
Definition set_trace (t : list syscall) (w : world) : world :=
  mkWorld (env w) (cwd w) (stdout w) (stderr w) t (listeners w)
          (pending w) (self w) (sent w).
Definition set_listeners (l : list (string * Z)) (w : world) : world :=
  mkWorld (env w) (cwd w) (stdout w) (stderr w) (trace w) l
          (pending w) (self w) (sent w).
Definition set_pending (p : list arrival) (w : world) : world :=
  mkWorld (env w) (cwd w) (stdout w) (stderr w) (trace w) (listeners w)
          p (self w) (sent w).
Definition set_self (h : handler) (w : world) : world :=
  mkWorld (env w) (cwd w) (stdout w) (stderr w) (trace w) (listeners w)
          (pending w) h (sent w).
Definition set_sent (r : list (list string)) (w : world) : world :=
  mkWorld (env w) (cwd w) (stdout w) (stderr w) (trace w) (listeners w)
          (pending w) (self w) r.

Definition set_close_connection (b : bool) (h : handler) : handler :=
  mkHandler (client_address h) (command h) (requestline h)
            (request_version h) b (headers_buffer h) (wfile h).
Definition set_headers_buffer (b : list string) (h : handler) : handler :=
  mkHandler (client_address h) (command h) (requestline h)
            (request_version h) (close_connection h) b (wfile h).
Definition set_wfile (o : list string) (h : handler) : handler :=
  mkHandler (client_address h) (command h) (requestline h)
            (request_version h) (close_connection h) (headers_buffer h) o.

(** ** Statements: state, exceptions, and calls that never return *)

Inductive result (A : Type) : Type :=
| Ret (a : A)
| Raise (e : exn)
| Block.

Arguments Ret {A} a.
Arguments Raise {A} e.
Arguments Block {A}.

Definition M (A : Type) : Type := world -> result A * world.

Definition ret {A : Type} (a : A) : M A := fun w => (Ret a, w).

Definition bind {A B : Type} (m : M A) (k : A -> M B) : M B :=
  fun w =>
    match m w with
    | (Ret a, w') => k a w'
    | (Raise e, w') => (Raise e, w')
    | (Block, w') => (Block, w')
    end.

Definition raise {A : Type} (e : exn) : M A := fun w => (Raise e, w).

Definition block {A : Type} : M A := fun w => (Block, w).

Declare Scope py_scope.
Delimit Scope py_scope with py.
Notation "x <- m ;; k" := (bind m (fun x => k))
  (at level 100, m at next level, right associativity) : py_scope.
Notation "m ;; k" := (bind m (fun _ => k))
  (at level 100, right associativity) : py_scope.
Open Scope py_scope.

(** [try: body] followed by [except C: handler]; [catches] decides
    [isinstance(e, C)]. A call that never returns is not an exception. *)
Definition try_except {A : Type} (body : M A) (catches : exn -> bool)
    (handler : exn -> M A) : M A :=
  fun w =>
    match body w with
    | (Raise e, w') => if catches e then handler e w' else (Raise e, w')
    | r => r
    end.

(** [with mgr as x: body], for a context manager whose [__enter__]
    returns the object and whose [__exit__] runs [leave] and lets the
    exception through. *)
Definition with_as {A B : Type} (mgr : M A) (leave : A -> M unit)
    (body : A -> M B) : M B :=
  x <- mgr ;;
  fun w =>
    match body x w with
    | (Ret b, w') => (_ <- leave x ;; ret b) w'
    | (Raise e, w') => (_ <- leave x ;; raise e) w'
    | (Block, w') => (Block, w')
    end.

Definition get {A : Type} (f : world -> A) : M A := fun w => (Ret (f w), w).
Definition modify (f : world -> world) : M unit := fun w => (Ret tt, f w).
Definition syscall_ (c : syscall) : M unit :=
  modify (fun w => set_trace (trace w ++ [c]) w).

(** [print(s)]. *)
Definition print (s : string) : M unit :=
  modify (fun w => set_stdout (stdout w ++ [s]) w).

(** [sys.exit(code)]. *)
Definition sys_exit {A : Type} (code : Z) : M A := raise (SystemExit code).

(** ** The operating system calls the script makes *)

(** [os.path.exists(p)]: true for a file as much as for a directory. *)
Definition os_path_exists (p : string) : M bool :=
  e <- get (fun w => fs (env w) p) ;;
  ret (match e with Some _ => true | None => false end).

(** [os.chdir(p)]. *)
Definition os_chdir (p : string) : M unit :=
  e <- get (fun w => fs (env w) p) ;;
  syscall_ (SysChdir p) ;;
  match e with
  | Some (Directory abspath) => modify (set_cwd abspath)
  | Some RegularFile => raise NotADirectoryError
  | Some LockedDirectory => raise PermissionError
  | None => raise FileNotFoundError
  end.

(** [os.getcwd()]. *)
Definition os_getcwd : M string := get cwd.

Record socket : Type := mkSocket {
  sock_family : family;
  sock_type : socktype
}.

Definition answer (r : option exn) : M unit :=
  match r with
  | Some e => raise e
  | None => ret tt
  end.

(** [socket.socket(f, t)]. *)
Definition socket_socket (f : family) (t : socktype) : M socket :=
  syscall_ (SysSocket f t) ;;
  r <- get (fun w => on_socket (net (env w))) ;;
  answer r ;;
  ret (mkSocket f t).

(** [s.connect((host, port))]: on a datagram socket this only fixes the
    peer address and lets the system choose the local one. *)
Definition connect (s : socket) (address : string * Z) : M unit :=
  syscall_ (SysConnect (fst address) (snd address)) ;;
  r <- get (fun w => on_connect (net (env w))) ;;
  answer r.

(** [s.getsockname()]. *)
Definition getsockname (s : socket) : M (string * Z) :=
  syscall_ SysGetsockname ;;
  r <- get (fun w => on_getsockname (net (env w))) ;;
  match r with
  | inl e => raise e
  | inr a => ret a
  end.

(** [s.close()]. *)
Definition close (s : socket) : M unit :=
  syscall_ SysClose ;;
  r <- get (fun w => on_close (net (env w))) ;;
  answer r.

(** ** [get_ip] *)

Definition get_ip : M string :=
  try_except
    (s <- socket_socket AF_INET SOCK_DGRAM ;;
     connect s ("8.8.8.8", 80%Z) ;;
     a <- getsockname s ;;
     let ip := fst a in
     close s ;;
     ret ip)
    any_exception
    (fun _ => ret "localhost").

(** ** The handler classes *)

(** The two methods that [serve.py] overrides; every call the base class
    makes to them goes through the class of the object. *)
Record class : Type := mkClass {
  m_end_headers : M unit;
  m_log_message : string -> list pyval -> M unit
}.

Definition modify_self (f : handler -> handler) : M unit :=
  modify (fun w => set_self (f (self w)) w).

(** [self.wfile.write(data)]. *)
Definition wfile_write (data : list string) : M unit :=
  modify_self (fun h => set_wfile (wfile h ++ data) h).

(** [http.server.BaseHTTPRequestHandler], as far as a response goes
    through it. *)
Module BaseHTTPRequestHandler.

Definition protocol_version : string := "HTTP/1.0".
Definition error_content_type : string := "text/html;charset=utf-8".

(** The reason phrases of [responses] for the statuses that
    [SimpleHTTPRequestHandler] sends. *)
Definition responses (code : Z) : option string :=
  match code with
  | 100%Z => Some "Continue"
  | 200%Z => Some "OK"
  | 301%Z => Some "Moved Permanently"
  | 304%Z => Some "Not Modified"
  | 400%Z => Some "Bad Request"
  | 403%Z => Some "Forbidden"
  | 404%Z => Some "Not Found"
  | 414%Z => Some "Request-URI Too Long"
  | 501%Z => Some "Not Implemented"
  | 505%Z => Some "HTTP Version Not Supported"
  | _ => None
  end.

Definition log_date_time_string : M string :=
  get (fun w => log_date_time (env w)).
Definition date_time_string : M string :=
  get (fun w => date_time (env w)).
Definition version_string : M string :=
  get (fun w => version (env w)).
Definition address_string : M string :=
  get (fun w => client_address (self w)).

Definition buffers (h : handler) : bool :=
  negb (request_version h =? "HTTP/0.9").

Definition send_response_only (code : Z) (message : option string)
    : M unit :=
  modify_self (fun h =>
    if buffers h then
      let message :=
        match message with
        | Some m => m
        | None =>
            match responses code with
            | Some m => m
            | None => ""
            end
        end in
      set_headers_buffer
        (headers_buffer h ++
         [(protocol_version ++ " " ++ str_int code ++ " " ++ message
           ++ CRLF)%string]) h
    else h).

Definition send_header (keyword value : string) : M unit :=
  modify_self (fun h =>
    if buffers h then
      set_headers_buffer
        (headers_buffer h ++ [(keyword ++ ": " ++ value ++ CRLF)%string]) h
    else h) ;;
  if lower keyword =? "connection" then
    if lower value =? "close" then
      modify_self (set_close_connection true)
    else if lower value =? "keep-alive" then
      modify_self (set_close_connection false)
    else ret tt
  else ret tt.

Definition flush_headers : M unit :=
  b <- get (fun w => headers_buffer (self w)) ;;
  wfile_write b ;;
  modify_self (set_headers_buffer []).

Definition end_headers : M unit :=
  h <- get self ;;
  if buffers h then
    modify_self (fun h => set_headers_buffer (headers_buffer h ++ [CRLF]) h) ;;
    flush_headers
  else ret tt.

Definition hex_digit (n : nat) : ascii :=
  if Nat.ltb n 10 then ascii_of_nat (48 + n) else ascii_of_nat (87 + n).

(** [message.translate(self._control_char_table)]. *)
Fixpoint escape_control (s : string) : string :=
  match s with
  | EmptyString => EmptyString
  | String c s' =>
      let n := nat_of_ascii c in
      if (Nat.ltb n 32 || (Nat.leb 127 n && Nat.ltb n 160))%bool then
        String "\"%char (String "x"%char
          (String (hex_digit (Nat.div n 16))
             (String (hex_digit (Nat.modulo n 16)) (escape_control s'))))
      else if Ascii.eqb c "\"%char then
        String "\"%char (String "\"%char (escape_control s'))
      else String c (escape_control s')
  end.

(** The base class logs to [sys.stderr], with the client address. *)
Definition log_message (format : string) (args : list pyval) : M unit :=
  match pct format args with
  | None => raise TypeError
  | Some message =>
      a <- address_string ;;
      t <- log_date_time_string ;;
      modify (fun w =>
        set_stderr
          (stderr w ++
           [(a ++ " - - [" ++ t ++ "] " ++ escape_control message
             ++ LF)%string])
          w)
  end.

Definition log_request (cls : class) (code : string) (size : string)
    : M unit :=
  l <- get (fun w => requestline (self w)) ;;
  m_log_message cls (DQUOTE ++ "%s" ++ DQUOTE ++ " %s %s")%string
    [PStr l; PStr code; PStr size].

Definition log_error (cls : class) (format : string) (args : list pyval)
    : M unit :=
  m_log_message cls format args.

Definition send_response (cls : class) (code : Z)
    (message : option string) : M unit :=
  log_request cls (str_int code) "-" ;;
  send_response_only code message ;;
  v <- version_string ;;
  send_header "Server" v ;;
  d <- date_time_string ;;
  send_header "Date" d.

Definition has_body (code : Z) : bool :=
  ((200 <=? code)%Z &&
   negb ((code =? 204)%Z || (code =? 205)%Z || (code =? 304)%Z))%bool.

(** [send_error(code, message)]; [page] is the rendered
    [error_message_format]. *)
Definition send_error (cls : class) (code : Z) (message : option string)
    (page : string) : M unit :=
  let shortmsg :=
    match responses code with
    | Some m => m
    | None => "???"
    end in
  let message :=
    match message with
    | Some m => m
    | None => shortmsg
    end in
  log_error cls "code %d, message %s" [PInt code; PStr message] ;;
  send_response cls code (Some message) ;;
  send_header "Connection" "close" ;;
  (if has_body code then
     send_header "Content-Type" error_content_type ;;
     send_header "Content-Length" (str_int (Z.of_nat (length page)))
   else ret tt) ;;
  m_end_headers cls ;;
  c <- get (fun w => command (self w)) ;;
  if (negb (c =? "HEAD") && has_body code && negb (page =? ""))%bool
  then wfile_write [page]
  else ret tt.

Definition class_ : class := mkClass end_headers log_message.

End BaseHTTPRequestHandler.

(** [http.server.SimpleHTTPRequestHandler]: it keeps [end_headers] and
    [log_message] of its base class. A request carries what [send_head]
    decides. *)
Module SimpleHTTPRequestHandler.

Fixpoint send_headers (hdrs : list (string * string)) : M unit :=
  match hdrs with
  | [] => ret tt
  | (k, v) :: rest =>
      BaseHTTPRequestHandler.send_header k v ;; send_headers rest
  end.

(** [do_GET] and [do_HEAD]. *)
Definition do_method (cls : class) (r : reply) : M unit :=
  match r with
  | Respond code hdrs body =>
      BaseHTTPRequestHandler.send_response cls code None ;;
      send_headers hdrs ;;
      m_end_headers cls ;;
      c <- get (fun w => command (self w)) ;;
      if c =? "HEAD" then ret tt else wfile_write [body]
  | Fail code message page =>
      BaseHTTPRequestHandler.send_error cls code message page
  end.

Definition class_ : class := BaseHTTPRequestHandler.class_.

End SimpleHTTPRequestHandler.

(** ** [MyHTTPRequestHandler] *)

Module MyHTTPRequestHandler.

Definition end_headers : M unit :=
  BaseHTTPRequestHandler.send_header
    "Cache-Control" "no-store, no-cache, must-revalidate" ;;
  BaseHTTPRequestHandler.end_headers.

Definition log_message (format : string) (args : list pyval) : M unit :=
  t <- BaseHTTPRequestHandler.log_date_time_string ;;
  match pct format args with
  | Some m => print ("[" ++ t ++ "] " ++ m)%string
  | None => raise TypeError
  end.

Definition class_ : class := mkClass end_headers log_message.

End MyHTTPRequestHandler.

Definition Handler : class := MyHTTPRequestHandler.class_.

(** ** [socketserver.TCPServer] *)

Module socketserver.

Record server : Type := mkServer {
  server_address : string * Z;
  RequestHandlerClass : class
}.

Definition same_address (a b : string * Z) : bool :=
  ((fst a =? fst b)%string && (snd a =? snd b)%Z)%bool.

Definition server_bind (httpd : server) : M unit :=
  let a := server_address httpd in
  syscall_ (SysBind (fst a) (snd a)) ;;
  r <- get (fun w => bind_fails (env w)) ;;
  (if r then raise OSError else ret tt) ;;
  modify (fun w => set_listeners (listeners w ++ [a]) w).

Definition server_activate (httpd : server) : M unit :=
  syscall_ SysListen.

Definition server_close (httpd : server) : M unit :=
  syscall_ SysServerClose ;;
  modify (fun w =>
    set_listeners
      (filter (fun a => negb (same_address a (server_address httpd)))
              (listeners w)) w).

(** [TCPServer(server_address, RequestHandlerClass)]. *)
Definition TCPServer (address : string * Z) (cls : class) : M server :=
  let httpd := mkServer address cls in
  syscall_ (SysSocket AF_INET SOCK_STREAM) ;;
  try_except
    (server_bind httpd ;; server_activate httpd)
    any_exception
    (fun e => server_close httpd ;; raise e) ;;
  ret httpd.

Definition new_handler (r : request) : handler :=
  mkHandler (r_client r) (r_command r) (r_line r) (r_version r)
            true [] [].

(** [finish_request]: build the handler object and let it handle the
    request. *)
Definition finish_request (httpd : server) (r : request) : M unit :=
  modify (set_self (new_handler r)) ;;
  SimpleHTTPRequestHandler.do_method (RequestHandlerClass httpd)
    (r_reply r).

(** [shutdown_request]: the connection is closed; what was written to
    it is what the client got. *)
Definition shutdown_request : M unit :=
  modify (fun w => set_sent (sent w ++ [wfile (self w)]) w).

Definition process_request (httpd : server) (r : request) : M unit :=
  finish_request httpd r ;;
  shutdown_request.

Definition handle_error (r : request) : M unit :=
  modify (fun w =>
    set_stderr
      (stderr w ++
       [("Exception occurred during processing of request from "
         ++ r_client r)%string]) w).

Definition _handle_request_noblock (httpd : server) (r : request)
    : M unit :=
  try_except
    (process_request httpd r)
    any_exception
    (fun e =>
       if is_Exception e then
         handle_error r ;; shutdown_request
       else
         shutdown_request ;; raise e).

(** The loop of [serve_forever] over what arrives: it returns only by
    an exception, and waits when nothing is left to arrive. *)
Fixpoint serve (httpd : server) (arrivals : list arrival) : M unit :=
  match arrivals with
  | [] => block
  | Interrupt :: rest =>
      modify (set_pending rest) ;;
      raise KeyboardInterrupt
  | Incoming r :: rest =>
      modify (set_pending rest) ;;
      _handle_request_noblock httpd r ;;
      serve httpd rest
  end.

Definition serve_forever (httpd : server) : M unit :=
  p <- get pending ;;
  serve httpd p.

End socketserver.

(** ** The script *)

Definition PORT : Z := 8000.

Definition main : M unit :=
  e <- os_path_exists "dist" ;;
  (if e then
     os_chdir "dist" ;;
     d <- os_getcwd ;;
     print ("Serving from: " ++ d)%string
   else
     print "ERROR: dist folder not found. Run 'npm run build' first." ;;
     sys_exit 1) ;;
  print (str_mul "=" 60) ;;
  print " Formansbil Kalkylator - Python Server" ;;
  print (str_mul "=" 60) ;;
  print (" Server running at: http://localhost:" ++ str_int PORT ++ "/")%string ;;
  ip <- get_ip ;;
  print (" Network: http://" ++ ip ++ ":" ++ str_int PORT ++ "/")%string ;;
  print (str_mul "=" 60) ;;
  print "Press Ctrl+C to stop the server" ;;
  print "" ;;
  with_as (socketserver.TCPServer ("", PORT) Handler)
    socketserver.server_close
    (fun httpd =>
       try_except
         (socketserver.serve_forever httpd)
         is_KeyboardInterrupt
         (fun _ =>
            print (LF ++ LF ++ "Server stopped")%string ;;
            sys_exit 0)).

(** How the process ends: [sys.exit] reached the top level, another
    exception did (a traceback), or it has not ended and waits for the
    next connection. *)
Inductive outcome : Type :=
| Exited (code : Z)
| Crashed (e : exn)
| Serving.

Definition run (w : world) : outcome * world :=
  match main w with
  | (Ret _, w') => (Exited 0, w')
  | (Raise (SystemExit code), w') => (Exited code, w')
  | (Raise e, w') => (Crashed e, w')
  | (Block, w') => (Serving, w')
  end.

(** ** What the handler methods do to the handler object *)

Definition Cache_Control : string :=
  ("Cache-Control: no-store, no-cache, must-revalidate" ++ CRLF)%string.

Definition header_line (kv : string * string) : string :=
  (fst kv ++ ": " ++ snd kv ++ CRLF)%string.

Definition status_line (code : Z) (message : string) : string :=
  ("HTTP/1.0 " ++ str_int code ++ " " ++ message ++ CRLF)%string.

Definition reason (code : Z) : string :=
  match BaseHTTPRequestHandler.responses code with
  | Some m => m
  | None => ""
  end.

Definition error_message (code : Z) (message : option string) : string :=
  match message with
  | Some m => m
  | None =>
      match BaseHTTPRequestHandler.responses code with
      | Some m => m
      | None => "???"
      end
  end.

Definition add_status (code : Z) (message : string) (h : handler)
    : handler :=
  if BaseHTTPRequestHandler.buffers h
  then set_headers_buffer (headers_buffer h ++ [status_line code message]) h
  else h.

Definition add_header (k v : string) (h : handler) : handler :=
  let h1 :=
    if BaseHTTPRequestHandler.buffers h
    then set_headers_buffer (headers_buffer h ++ [header_line (k, v)]) h
    else h in
  if (lower k =? "connection")%string then
    if (lower v =? "close")%string then set_close_connection true h1
    else if (lower v =? "keep-alive")%string
         then set_close_connection false h1
         else h1
  else h1.

Definition add_headers (hdrs : list (string * string)) (h : handler)
    : handler :=
  fold_left (fun h kv => add_header (fst kv) (snd kv) h) hdrs h.

Definition flush (h : handler) : handler :=
  if BaseHTTPRequestHandler.buffers h
  then set_headers_buffer []
         (set_wfile (wfile h ++ headers_buffer h ++ [CRLF]) h)
  else h.

Definition write (data : list string) (h : handler) : handler :=
  set_wfile (wfile h ++ data) h.

(** [MyHTTPRequestHandler.end_headers] on the handler object. *)
Definition my_end (h : handler) : handler :=
  flush (add_header "Cache-Control" "no-store, no-cache, must-revalidate" h).

(** The handler after [do_GET] or [do_HEAD], for a class whose
    [end_headers] acts as [endf]. *)
Definition script (endf : handler -> handler) (e : environment)
    (rep : reply) (h : handler) : handler :=
  match rep with
  | Respond code hdrs body =>
      let h' :=
        endf (add_headers hdrs
                (add_header "Date" (date_time e)
                   (add_header "Server" (version e)
                      (add_status code (reason code) h)))) in
      if (command h' =? "HEAD")%string then h' else write [body] h'
  | Fail code message page =>
      let h1 :=
        add_header "Connection" "close"
          (add_header "Date" (date_time e)
             (add_header "Server" (version e)
                (add_status code (error_message code message) h))) in
      let h2 :=
        if BaseHTTPRequestHandler.has_body code then
          add_header "Content-Length" (str_int (Z.of_nat (length page)))
            (add_header "Content-Type"
               BaseHTTPRequestHandler.error_content_type h1)
        else h1 in
      let h' := endf h2 in
      if (negb (command h' =? "HEAD")%string
          && BaseHTTPRequestHandler.has_body code
          && negb (page =? "")%string)%bool
      then write [page] h' else h'
  end.

Definition view (h : handler)
    : string * string * list string * list string :=
  (request_version h, command h, headers_buffer h, wfile h).

(** ** What a request puts on the wire and in the log *)

(** The status line and the header lines of the base class. *)
Definition head (e : environment) (r : reply) : list string :=
  match r with
  | Respond code hdrs _ =>
      status_line code (reason code)
      :: header_line ("Server", version e)
      :: header_line ("Date", date_time e)
      :: map header_line hdrs
  | Fail code message page =>
      status_line code (error_message code message)
      :: header_line ("Server", version e)
      :: header_line ("Date", date_time e)
      :: header_line ("Connection", "close")
      :: (if BaseHTTPRequestHandler.has_body code then
            [header_line
               ("Content-Type", BaseHTTPRequestHandler.error_content_type);
             header_line
               ("Content-Length", str_int (Z.of_nat (length page)))]
          else [])
  end.

Definition payload (r : request) : list string :=
  match r_reply r with
  | Respond _ _ body =>
      if (r_command r =? "HEAD")%string then [] else [body]
  | Fail code _ page =>
      if (negb (r_command r =? "HEAD")%string
          && BaseHTTPRequestHandler.has_body code
          && negb (page =? "")%string)%bool
      then [page] else []
  end.

Definition http09 (r : request) : bool := (r_version r =? "HTTP/0.9")%string.

Definition answer_of (endf : handler -> handler) (e : environment)
    (r : request) : list string :=
  wfile (script endf e (r_reply r) (socketserver.new_handler r)).

(** What a handler of class [cls] writes to the client that sent [r]. *)
Definition exchange (cls : class) (r : request) (w : world) : list string :=
  wfile (self (snd (socketserver.finish_request
                      (socketserver.mkServer ("", PORT) cls) r w))).

Definition access_summary (line : string) (code : Z) : string :=
  (DQUOTE ++ line ++ DQUOTE ++ " " ++ str_int code ++ " -")%string.

Definition error_notice (code : Z) (message : string) : string :=
  ("code " ++ str_int code ++ ", message " ++ message)%string.

(** The messages the base class passes to [log_message] for a request:
    [send_response] logs the request, and [send_error] logs the error
    before it calls [send_response]. *)
Definition log_events (line : string) (rep : reply) : list string :=
  match rep with
  | Respond code _ _ => [access_summary line code]
  | Fail code message _ =>
      [error_notice code (error_message code message);
       access_summary line code]
  end.

Definition stamp (e : environment) (m : string) : string :=
  ("[" ++ log_date_time e ++ "] " ++ m)%string.

Definition base_stamp (e : environment) (client m : string) : string :=
  (client ++ " - - [" ++ log_date_time e ++ "] "
   ++ BaseHTTPRequestHandler.escape_control m ++ LF)%string.

Definition my_log (m : string) (w : world) : world :=
  set_stdout (stdout w ++ [stamp (env w) m]) w.

Definition base_log (m : string) (w : world) : world :=
  set_stderr
    (stderr w ++ [base_stamp (env w) (client_address (self w)) m]) w.

Definition logs (logw : string -> world -> world) (ms : list string)
    (w : world) : world :=
  fold_left (fun w m => logw m w) ms w.

Definition log_lines (e : environment) (r : request) : list string :=
  map (stamp e) (log_events (r_line r) (r_reply r)).

(** The process after [Handler] has served [r]. *)
Definition after_request (r : request) (w : world) : world :=
  mkWorld (env w) (cwd w)
    (stdout w ++ log_lines (env w) r)
    (stderr w) (trace w) (listeners w) (pending w)
    (script my_end (env w) (r_reply r) (socketserver.new_handler r))
    (sent w ++ [answer_of my_end (env w) r]).

(** The process after the base class has served [r]. *)
Definition after_request_base (r : request) (w : world) : world :=
  mkWorld (env w) (cwd w) (stdout w)
    (stderr w ++
     map (base_stamp (env w) (r_client r))
         (log_events (r_line r) (r_reply r)))
    (trace w) (listeners w) (pending w)
    (script flush (env w) (r_reply r) (socketserver.new_handler r))
    (sent w ++ [answer_of flush (env w) r]).

(** ** What [serve_forever] does with what arrives *)

Fixpoint served (l : list arrival) : list request :=
  match l with
  | Incoming r :: rest => r :: served rest
  | _ => []
  end.

Fixpoint interrupted (l : list arrival) : bool :=
  match l with
  | [] => false
  | Interrupt :: _ => true
  | Incoming _ :: rest => interrupted rest
  end.

Fixpoint left_over (l : list arrival) : list arrival :=
  match l with
  | [] => []
  | Interrupt :: rest => rest
  | Incoming _ :: rest => left_over rest
  end.

Fixpoint after_arrivals (l : list arrival) (w : world) : world :=
  match l with
  | [] => w
  | Interrupt :: rest => set_pending rest w
  | Incoming r :: rest =>
      after_arrivals rest (after_request r (set_pending rest w))
  end.

(** ** The start of the script *)

Definition discovered (n : network) : string :=
  match on_socket n, on_connect n, on_getsockname n, on_close n with
  | None, None, inr a, None => fst a
  | _, _, _, _ => "localhost"
  end.

Definition probe (n : network) : list syscall :=
  SysSocket AF_INET SOCK_DGRAM ::
  match on_socket n with
  | Some _ => []
  | None =>
      SysConnect "8.8.8.8" 80 ::
      match on_connect n with
      | Some _ => []
      | None =>
          SysGetsockname ::
          match on_getsockname n with
          | inl _ => []
          | inr _ => [SysClose]
          end
      end
  end.

Definition banner (ip : string) : list string :=
  ["============================================================";
   " Formansbil Kalkylator - Python Server";
   "============================================================";
   " Server running at: http://localhost:8000/";
   (" Network: http://" ++ ip ++ ":8000/")%string;
   "============================================================";
   "Press Ctrl+C to stop the server";
   ""].

(** The process when it has printed the banner, before it binds. *)
Definition announced (abspath : string) (w : world) : world :=
  mkWorld (env w) abspath
    (stdout w ++
     ("Serving from: " ++ abspath)%string
     :: banner (discovered (net (env w))))
    (stderr w)
    (trace w ++ SysChdir "dist" :: probe (net (env w)))
    (listeners w) (pending w) (self w) (sent w).

(** The process when it enters [serve_forever]. *)
Definition listening (abspath : string) (w : world) : world :=
  let a := announced abspath w in
  set_listeners (listeners a ++ [("", 8000%Z)])
    (set_trace
       (trace a ++ [SysSocket AF_INET SOCK_STREAM; SysBind "" 8000; SysListen])
       a).

(** The process when [server_close] has run. *)
Definition closed (w : world) : world :=
  set_listeners
    (filter (fun a => negb (socketserver.same_address a ("", 8000%Z)))
            (listeners w))
    (set_trace (trace w ++ [SysServerClose]) w).

(** The process after the interrupt. *)
Definition stopped (w : world) : world :=
  closed (set_stdout (stdout w ++ [(LF ++ LF ++ "Server stopped")%string]) w).

(** The process when [bind] has failed. *)
Definition unbound (abspath : string) (w : world) : world :=
  let a := announced abspath w in
  closed (set_trace
            (trace a ++ [SysSocket AF_INET SOCK_STREAM; SysBind "" 8000]) a).

Definition is_bind (c : syscall) : bool :=
  match c with
  | SysBind _ _ => true
  | _ => false
  end.

Definition is_send (c : syscall) : bool :=
  match c with
  | SysSend _ => true
  | _ => false
  end.

(** A header of cross-origin resource sharing. *)
Definition is_cors (line : string) : bool :=
  prefix "access-control-" (lower line).

(** The number of URLs a list of printed lines shows. *)
Definition urls (lines : list string) : nat :=
  list_sum (map (count "http://") lines).

(** The same process in front of another network. *)
Definition with_net (n : network) (w : world) : world :=
  mkWorld
    (mkEnvironment (fs (env w)) n (bind_fails (env w))
       (log_date_time (env w)) (date_time (env w)) (version (env w)))
    (cwd w) (stdout w) (stderr w) (trace w) (listeners w) (pending w)
    (self w) (sent w).

(** ** Sample processes *)

Module Sample.

Definition net_up : network :=
  mkNetwork None None (inr ("192.168.1.10", 54321%Z)) None.

Definition net_down : network :=
  mkNetwork None (Some OSError) (inr ("0.0.0.0", 0%Z)) None.

Definition net_interrupted : network :=
  mkNetwork None (Some KeyboardInterrupt) (inr ("0.0.0.0", 0%Z)) None.

Definition environment_ (d : option entry) (n : network) : environment :=
  mkEnvironment (fun p => if (p =? "dist")%string then d else None) n false
    "04/Nov/2026 12:00:00" "Wed, 04 Nov 2026 11:00:00 GMT"
    "SimpleHTTP/0.6 Python/3.11.2".

Definition idle : handler := mkHandler "" "" "" "" true [] [].

Definition process (d : option entry) (n : network) (p : list arrival)
    : world :=
  mkWorld (environment_ d n) "/home/u/app" [] [] [] [] p idle [].

Definition dist : option entry := Some (Directory "/home/u/app/dist").

Definition index : request :=
  mkRequest "127.0.0.1" "GET" "GET /index.html HTTP/1.1" "HTTP/1.1"
    (Respond 200 [("Content-type", "text/html"); ("Content-Length", "5")]
       "hello").

Definition missing : request :=
  mkRequest "127.0.0.1" "GET" "GET /nope HTTP/1.1" "HTTP/1.1"
    (Fail 404 (Some "File not found") "<html>nope</html>").

Definition simple : request :=
  mkRequest "127.0.0.1" "GET" "GET /index.html" "HTTP/0.9"
    (Respond 200 [("Content-type", "text/html"); ("Content-Length", "5")]
       "hello").

(** A request line whose version [parse_request] refuses: the handler
    still holds ["HTTP/0.9"] and no command when it sends the error. *)
Definition unsupported : request :=
  mkRequest "127.0.0.1" "" "GET /index.html HTTP/2.0" "HTTP/0.9"
    (Fail 505 (Some "Invalid HTTP version (2.0)") "<html>505</html>").

(** A handler in the middle of a response. *)
Definition answering (ver : string) : world :=
  set_self
    (mkHandler "127.0.0.1" "GET" "GET /index.html" ver true
       (if (ver =? "HTTP/0.9")%string then []
        else [status_line 200 "OK"; header_line ("Content-Length", "5")])
       [])
    (process dist net_up []).

End Sample.

(** ** More observations *)

(** The creation of a datagram socket: the start of an address
    discovery. *)
Definition is_dgram (c : syscall) : bool :=
  match c with
  | SysSocket _ SOCK_DGRAM => true
  | _ => false
  end.

Definition is_close (c : syscall) : bool :=
  match c with
  | SysClose => true
  | _ => false
  end.

(** The same request from another client. *)
Definition from_client (client : string) (r : request) : request :=
  mkRequest client (r_command r) (r_line r) (r_version r) (r_reply r).

(** The same process when port 8000 is taken. *)
Definition with_port_taken (w : world) : world :=
  mkWorld
    (mkEnvironment (fs (env w)) (net (env w)) true
       (log_date_time (env w)) (date_time (env w)) (version (env w)))
    (cwd w) (stdout w) (stderr w) (trace w) (listeners w) (pending w)
    (self w) (sent w).

(** * The effect of each statement *)

Arguments add_status : simpl never.
Arguments add_header : simpl never.
Arguments add_headers : simpl never.
Arguments flush : simpl never.
Arguments write : simpl never.
Arguments get_ip : simpl never.

Lemma append_empty_r (s : string) : (s ++ "")%string = s.
Proof. induction s as [|c s IH]; cbn; [reflexivity | now rewrite IH]. Qed.

Lemma bind_Ret {A B : Type} (m : M A) (k : A -> M B) (w w' : world) (a : A) :
  m w = (Ret a, w') -> bind m k w = k a w'.
Proof. intros E. unfold bind. now rewrite E. Qed.

Lemma bind_bind {A B C : Type} (m : M A) (k1 : A -> M B) (k2 : B -> M C)
    (w : world) :
  bind (bind m k1) k2 w = bind m (fun a => bind (k1 a) k2) w.
Proof. unfold bind. destruct (m w) as [[a|e|] w']; reflexivity. Qed.

Lemma set_self_self (w : world) : set_self (self w) w = w.
Proof. now destruct w. Qed.

(** ** The methods of the base class *)

Lemma send_response_only_effect (code : Z) (message : option string)
    (w : world) :
  BaseHTTPRequestHandler.send_response_only code message w
  = (Ret tt,
     set_self
       (add_status code
          (match message with Some m => m | None => reason code end)
          (self w)) w).
Proof. reflexivity. Qed.

Lemma send_header_effect (k v : string) (w : world) :
  BaseHTTPRequestHandler.send_header k v w
  = (Ret tt, set_self (add_header k v (self w)) w).
Proof.
  unfold BaseHTTPRequestHandler.send_header, add_header, bind, modify_self,
    modify, ret.
  destruct (lower k =? "connection")%string; [|reflexivity].
  destruct (lower v =? "close")%string; [reflexivity|].
  destruct (lower v =? "keep-alive")%string; reflexivity.
Qed.

Lemma send_headers_effect (hdrs : list (string * string)) :
  forall w : world,
    SimpleHTTPRequestHandler.send_headers hdrs w
    = (Ret tt, set_self (add_headers hdrs (self w)) w).
Proof.
  induction hdrs as [|[k v] rest IH]; intros w.
  - now rewrite <- (set_self_self w) at 1.
  - cbn [SimpleHTTPRequestHandler.send_headers].
    rewrite (bind_Ret _ _ _ _ _ (send_header_effect k v w)).
    now rewrite IH.
Qed.

Lemma base_end_headers_effect (w : world) :
  BaseHTTPRequestHandler.end_headers w = (Ret tt, set_self (flush (self w)) w).
Proof.
  unfold BaseHTTPRequestHandler.end_headers, flush, bind, get.
  destruct (BaseHTTPRequestHandler.buffers (self w)).
  - reflexivity.
  - now rewrite set_self_self.
Qed.

Lemma my_end_headers_effect (w : world) :
  MyHTTPRequestHandler.end_headers w
  = (Ret tt, set_self (my_end (self w)) w).
Proof.
  unfold MyHTTPRequestHandler.end_headers, my_end.
  rewrite (bind_Ret _ _ _ _ _ (send_header_effect _ _ w)).
  now rewrite base_end_headers_effect.
Qed.

Lemma pct_access (line code size : string) :
  pct (DQUOTE ++ "%s" ++ DQUOTE ++ " %s %s")%string
      [PStr line; PStr code; PStr size]
  = Some (DQUOTE ++ line ++ DQUOTE ++ " " ++ code ++ " " ++ size)%string.
Proof. cbn. now rewrite append_empty_r. Qed.

Lemma pct_error (code : Z) (message : string) :
  pct "code %d, message %s" [PInt code; PStr message]
  = Some ("code " ++ str_int code ++ ", message " ++ message)%string.
Proof. cbn. now rewrite append_empty_r. Qed.

Lemma my_log_message_effect (fmt : string) (args : list pyval) (m : string)
    (w : world) :
  pct fmt args = Some m ->
  m_log_message Handler fmt args w = (Ret tt, my_log m w).
Proof.
  intros E. cbn. unfold MyHTTPRequestHandler.log_message, bind,
    BaseHTTPRequestHandler.log_date_time_string, get.
  now rewrite E.
Qed.

Lemma base_log_message_effect (fmt : string) (args : list pyval) (m : string)
    (w : world) :
  pct fmt args = Some m ->
  m_log_message SimpleHTTPRequestHandler.class_ fmt args w
  = (Ret tt, base_log m w).
Proof.
  intros E. cbn. unfold BaseHTTPRequestHandler.log_message. now rewrite E.
Qed.

(** ** A response, for any class that overrides the two methods *)

Section Dispatch.
Variable cls : class.
Variable endf : handler -> handler.
Variable logw : string -> world -> world.
Hypothesis end_headers_effect :
  forall w, m_end_headers cls w = (Ret tt, set_self (endf (self w)) w).
Hypothesis log_message_effect :
  forall fmt args m w,
    pct fmt args = Some m -> m_log_message cls fmt args w = (Ret tt, logw m w).
Hypothesis logw_self : forall m w, self (logw m w) = self w.
Hypothesis logw_env : forall m w, env (logw m w) = env w.

Lemma log_request_effect (code : Z) (w : world) :
  BaseHTTPRequestHandler.log_request cls (str_int code) "-" w
  = (Ret tt, logw (access_summary (requestline (self w)) code) w).
Proof.
  unfold BaseHTTPRequestHandler.log_request, bind, get.
  now rewrite (log_message_effect _ _ _ _ (pct_access _ _ _)).
Qed.

Lemma log_error_effect (code : Z) (message : string) (w : world) :
  BaseHTTPRequestHandler.log_error cls "code %d, message %s"
    [PInt code; PStr message] w
  = (Ret tt, logw (error_notice code message) w).
Proof.
  unfold BaseHTTPRequestHandler.log_error.
  now rewrite (log_message_effect _ _ _ _ (pct_error _ _)).
Qed.

Lemma send_response_effect (code : Z) (message : option string) (w : world) :
  BaseHTTPRequestHandler.send_response cls code message w
  = (Ret tt,
     set_self
       (add_header "Date" (date_time (env w))
          (add_header "Server" (version (env w))
             (add_status code
                (match message with Some m => m | None => reason code end)
                (self w))))
       (logw (access_summary (requestline (self w)) code) w)).
Proof.
  unfold BaseHTTPRequestHandler.send_response.
  rewrite (bind_Ret _ _ _ _ _ (log_request_effect code w)).
  rewrite (bind_Ret _ _ _ _ _ (send_response_only_effect _ _ _)).
  unfold BaseHTTPRequestHandler.version_string,
    BaseHTTPRequestHandler.date_time_string, bind at 1, get at 1.
  rewrite (bind_Ret _ _ _ _ _ (send_header_effect _ _ _)).
  unfold bind, get. rewrite send_header_effect.
  cbn [self set_self env]. now rewrite logw_self, logw_env.
Qed.

Lemma do_method_effect (rep : reply) (w : world) :
  SimpleHTTPRequestHandler.do_method cls rep w
  = (Ret tt,
     set_self (script endf (env w) rep (self w))
       (logs logw (log_events (requestline (self w)) rep) w)).
Proof.
  destruct rep as [code hdrs body | code message page];
    cbn [SimpleHTTPRequestHandler.do_method script log_events logs
         fold_left].
  - rewrite (bind_Ret _ _ _ _ _ (send_response_effect _ _ _)).
    rewrite (bind_Ret _ _ _ _ _ (send_headers_effect _ _)).
    rewrite (bind_Ret _ _ _ _ _ (end_headers_effect _)).
    unfold bind, get. cbn [self set_self].
    destruct (command _ =? "HEAD")%string; reflexivity.
  - unfold BaseHTTPRequestHandler.send_error, error_message; cbv zeta.
    rewrite (bind_Ret _ _ _ _ _ (log_error_effect _ _ _)).
    rewrite (bind_Ret _ _ _ _ _ (send_response_effect _ _ _)).
    rewrite (bind_Ret _ _ _ _ _ (send_header_effect _ _ _)).
    rewrite !logw_self, !logw_env. cbn [self set_self].
    destruct (BaseHTTPRequestHandler.has_body code).
    + rewrite bind_bind.
      rewrite (bind_Ret _ _ _ _ _ (send_header_effect _ _ _)).
      rewrite (bind_Ret _ _ _ _ _ (send_header_effect _ _ _)).
      rewrite (bind_Ret _ _ _ _ _ (end_headers_effect _)).
      unfold bind, get. cbn [self set_self].
      destruct (command _ =? "HEAD")%string; destruct (page =? "")%string;
        reflexivity.
    + rewrite (bind_Ret _ _ _ _ _ (eq_refl : ret tt _ = _)).
      rewrite (bind_Ret _ _ _ _ _ (end_headers_effect _)).
      unfold bind, get. cbn [self set_self].
      destruct (command _ =? "HEAD")%string; destruct (page =? "")%string;
        reflexivity.
Qed.
End Dispatch.

Lemma do_method_Handler (rep : reply) (w : world) :
  SimpleHTTPRequestHandler.do_method Handler rep w
  = (Ret tt,
     set_self (script my_end (env w) rep (self w))
       (logs my_log (log_events (requestline (self w)) rep) w)).
Proof.
  apply (do_method_effect Handler my_end my_log).
  - exact my_end_headers_effect.
  - exact my_log_message_effect.
  - reflexivity.
  - reflexivity.
Qed.

Lemma do_method_Simple (rep : reply) (w : world) :
  SimpleHTTPRequestHandler.do_method SimpleHTTPRequestHandler.class_ rep w
  = (Ret tt,
     set_self (script flush (env w) rep (self w))
       (logs base_log (log_events (requestline (self w)) rep) w)).
Proof.
  apply (do_method_effect SimpleHTTPRequestHandler.class_ flush base_log).
  - exact base_end_headers_effect.
  - exact base_log_message_effect.
  - reflexivity.
  - reflexivity.
Qed.

Lemma handle_request_Handler (a : string * Z) (r : request) (w : world) :
  socketserver._handle_request_noblock (socketserver.mkServer a Handler) r w
  = (Ret tt, after_request r w).
Proof.
  unfold socketserver._handle_request_noblock, try_except,
    socketserver.process_request, socketserver.finish_request.
  cbn [socketserver.RequestHandlerClass].
  rewrite bind_bind.
  rewrite (bind_Ret _ _ _ _ _ (eq_refl : modify _ w = (Ret tt, _))).
  rewrite (bind_Ret _ _ _ _ _ (do_method_Handler _ _)).
  unfold socketserver.shutdown_request, modify, after_request, answer_of,
    log_lines.
  destruct w as [e c o er t l p h s], r as [cl cmd line ver rep].
  destruct rep;
    cbv [logs fold_left log_events my_log set_stdout set_self set_sent
         env cwd stdout stderr trace listeners pending self sent map
         r_line r_reply requestline socketserver.new_handler];
    rewrite <- ?app_assoc; reflexivity.
Qed.

Lemma handle_request_Simple (a : string * Z) (r : request) (w : world) :
  socketserver._handle_request_noblock
    (socketserver.mkServer a SimpleHTTPRequestHandler.class_) r w
  = (Ret tt, after_request_base r w).
Proof.
  unfold socketserver._handle_request_noblock, try_except,
    socketserver.process_request, socketserver.finish_request.
  cbn [socketserver.RequestHandlerClass].
  rewrite bind_bind.
  rewrite (bind_Ret _ _ _ _ _ (eq_refl : modify _ w = (Ret tt, _))).
  rewrite (bind_Ret _ _ _ _ _ (do_method_Simple _ _)).
  unfold socketserver.shutdown_request, modify, after_request_base,
    answer_of.
  destruct w as [e c o er t l p h s], r as [cl cmd line ver rep].
  destruct rep;
    cbv [logs fold_left log_events base_log set_stderr set_self set_sent
         env cwd stdout stderr trace listeners pending self sent map
         r_line r_reply r_client requestline client_address
         socketserver.new_handler];
    rewrite <- ?app_assoc; reflexivity.
Qed.

Lemma exchange_Handler (r : request) (w : world) :
  exchange Handler r w = answer_of my_end (env w) r.
Proof.
  unfold exchange, socketserver.finish_request.
  cbn [socketserver.RequestHandlerClass].
  rewrite (bind_Ret _ _ _ _ _ (eq_refl : modify _ w = (Ret tt, _))).
  now rewrite do_method_Handler.
Qed.

Lemma exchange_Simple (r : request) (w : world) :
  exchange SimpleHTTPRequestHandler.class_ r w = answer_of flush (env w) r.
Proof.
  unfold exchange, socketserver.finish_request.
  cbn [socketserver.RequestHandlerClass].
  rewrite (bind_Ret _ _ _ _ _ (eq_refl : modify _ w = (Ret tt, _))).
  now rewrite do_method_Simple.
Qed.

(** ** The header buffer along a response *)

Section Views.
Variables ver cmd : string.
Variables buf out : list string.
Variable h : handler.
Hypothesis H : view h = (ver, cmd, buf, out).

Lemma view_buffers :
  BaseHTTPRequestHandler.buffers h = negb (ver =? "HTTP/0.9")%string.
Proof.
  unfold BaseHTTPRequestHandler.buffers.
  now replace (request_version h) with ver by (now inversion H).
Qed.

Lemma view_add_status (code : Z) (message : string) :
  view (add_status code message h)
  = (ver, cmd,
     buf ++ (if negb (ver =? "HTTP/0.9")%string
             then [status_line code message] else []),
     out).
Proof.
  unfold add_status. rewrite view_buffers.
  destruct (negb _); cbn; rewrite ?app_nil_r; [|exact H].
  inversion H; subst; reflexivity.
Qed.

Lemma view_add_header (k v : string) :
  view (add_header k v h)
  = (ver, cmd,
     buf ++ (if negb (ver =? "HTTP/0.9")%string
             then [header_line (k, v)] else []),
     out).
Proof.
  unfold add_header. rewrite view_buffers.
  inversion H; subst.
  destruct (negb _);
    repeat match goal with
      | |- context [if ?c then _ else _] => destruct c
      end; cbn; rewrite ?app_nil_r; reflexivity.
Qed.

Lemma view_flush :
  view (flush h)
  = (ver, cmd,
     (if negb (ver =? "HTTP/0.9")%string then [] else buf),
     (if negb (ver =? "HTTP/0.9")%string then out ++ buf ++ [CRLF]
      else out)).
Proof.
  unfold flush. rewrite view_buffers.
  inversion H; subst. destruct (negb _); reflexivity.
Qed.

Lemma view_write (data : list string) :
  view (write data h) = (ver, cmd, buf, out ++ data).
Proof. inversion H; subst; reflexivity. Qed.

Lemma view_command : command h = cmd.
Proof. now inversion H. Qed.

Lemma view_wfile : wfile h = out.
Proof. now inversion H. Qed.
End Views.

Lemma view_add_headers (ver cmd : string) (hdrs : list (string * string)) :
  forall (buf out : list string) (h : handler),
    view h = (ver, cmd, buf, out) ->
    view (add_headers hdrs h)
    = (ver, cmd,
       buf ++ (if negb (ver =? "HTTP/0.9")%string
               then map header_line hdrs else []),
       out).
Proof.
  induction hdrs as [|[k v] rest IH]; intros buf out h H.
  - unfold add_headers; cbn [fold_left map]. rewrite H.
    destruct (negb _); now rewrite app_nil_r.
  - change (add_headers ((k, v) :: rest) h)
      with (add_headers rest (add_header k v h)).
    rewrite (IH _ _ _ (view_add_header _ _ _ _ _ H k v)).
    destruct (negb _); cbn [map]; now rewrite <- app_assoc.
Qed.

Ltac view_chain :=
  repeat match goal with
    | V : view ?h = _ |- context [add_status ?c ?m ?h] =>
        lazymatch goal with
        | _ : view (add_status c m h) = _ |- _ => fail
        | _ => pose proof (view_add_status _ _ _ _ _ V c m)
        end
    | V : view ?h = _ |- context [add_header ?k ?v ?h] =>
        lazymatch goal with
        | _ : view (add_header k v h) = _ |- _ => fail
        | _ => pose proof (view_add_header _ _ _ _ _ V k v)
        end
    | V : view ?h = _ |- context [add_headers ?l ?h] =>
        lazymatch goal with
        | _ : view (add_headers l h) = _ |- _ => fail
        | _ => pose proof (view_add_headers _ _ l _ _ _ V)
        end
    | V : view ?h = _ |- context [flush ?h] =>
        lazymatch goal with
        | _ : view (flush h) = _ |- _ => fail
        | _ => pose proof (view_flush _ _ _ _ _ V)
        end
    | V : view ?h = _ |- context [write ?d ?h] =>
        lazymatch goal with
        | _ : view (write d h) = _ |- _ => fail
        | _ => pose proof (view_write _ _ _ _ _ V d)
        end
    end.

Ltac view_result :=
  match goal with
  | V : view ?h = _ |- wfile ?h = _ => rewrite (view_wfile _ _ _ _ _ V)
  end;
  cbn [negb app]; rewrite <- ?app_assoc; reflexivity.

Lemma answer_of_mine (e : environment) (r : request) :
  answer_of my_end e r
  = if http09 r then payload r
    else head e (r_reply r) ++ Cache_Control :: CRLF :: payload r.
Proof.
  unfold answer_of, http09, payload, my_end, Cache_Control.
  destruct r as [cl cmd line ver rep]; cbn [r_reply r_command r_version].
  assert (V0 : view (socketserver.new_handler
                       (mkRequest cl cmd line ver rep)) = (ver, cmd, [], []))
    by reflexivity.
  destruct rep as [code hdrs body | code message page]; cbn [script head].
  - view_chain.
    match goal with
    | V : view (flush ?h) = _ |- _ => rewrite (view_command _ _ _ _ _ V)
    end.
    destruct (cmd =? "HEAD")%string; view_chain;
      destruct (ver =? "HTTP/0.9")%string; view_result.
  - destruct (BaseHTTPRequestHandler.has_body code); view_chain;
      match goal with
      | V : view (flush ?h) = _ |- _ => rewrite (view_command _ _ _ _ _ V)
      end;
      destruct (cmd =? "HEAD")%string; destruct (page =? "")%string;
      cbn [negb andb]; view_chain;
      destruct (ver =? "HTTP/0.9")%string; view_result.
Qed.

Lemma answer_of_base (e : environment) (r : request) :
  answer_of flush e r
  = if http09 r then payload r
    else head e (r_reply r) ++ CRLF :: payload r.
Proof.
  unfold answer_of, http09, payload.
  destruct r as [cl cmd line ver rep]; cbn [r_reply r_command r_version].
  assert (V0 : view (socketserver.new_handler
                       (mkRequest cl cmd line ver rep)) = (ver, cmd, [], []))
    by reflexivity.
  destruct rep as [code hdrs body | code message page]; cbn [script head].
  - view_chain.
    match goal with
    | V : view (flush ?h) = _ |- _ => rewrite (view_command _ _ _ _ _ V)
    end.
    destruct (cmd =? "HEAD")%string; view_chain;
      destruct (ver =? "HTTP/0.9")%string; view_result.
  - destruct (BaseHTTPRequestHandler.has_body code); view_chain;
      match goal with
      | V : view (flush ?h) = _ |- _ => rewrite (view_command _ _ _ _ _ V)
      end;
      destruct (cmd =? "HEAD")%string; destruct (page =? "")%string;
      cbn [negb andb]; view_chain;
      destruct (ver =? "HTTP/0.9")%string; view_result.
Qed.

(** ** [serve_forever] *)

Lemma serve_effect (a : string * Z) (l : list arrival) :
  forall w : world,
    socketserver.serve (socketserver.mkServer a Handler) l w
    = (if interrupted l then Raise KeyboardInterrupt else Block,
       after_arrivals l w).
Proof.
  induction l as [|[r|] rest IH]; intros w.
  - reflexivity.
  - cbn [socketserver.serve served interrupted after_arrivals].
    rewrite (bind_Ret _ _ _ _ _ (eq_refl : modify _ w = (Ret tt, _))).
    rewrite (bind_Ret _ _ _ _ _ (handle_request_Handler _ _ _)).
    apply IH.
  - reflexivity.
Qed.

Lemma after_arrivals_frame (l : list arrival) :
  forall w : world,
    env (after_arrivals l w) = env w
    /\ cwd (after_arrivals l w) = cwd w
    /\ stderr (after_arrivals l w) = stderr w
    /\ trace (after_arrivals l w) = trace w
    /\ listeners (after_arrivals l w) = listeners w.
Proof.
  induction l as [|[r|] rest IH]; intros w; cbn [after_arrivals].
  - repeat split.
  - destruct (IH (after_request r (set_pending rest w)))
      as (A & B & C & D & E).
    rewrite A, B, C, D, E. repeat split.
  - repeat split.
Qed.

Lemma after_arrivals_stdout (l : list arrival) :
  forall w : world,
    stdout (after_arrivals l w)
    = stdout w ++ flat_map (log_lines (env w)) (served l).
Proof.
  induction l as [|[r|] rest IH]; intros w;
    cbn [after_arrivals served flat_map].
  - now rewrite app_nil_r.
  - rewrite IH. cbn [after_request set_pending stdout env].
    now rewrite <- app_assoc.
  - now rewrite app_nil_r.
Qed.

Lemma after_arrivals_sent (l : list arrival) :
  forall w : world,
    sent (after_arrivals l w)
    = sent w ++ map (answer_of my_end (env w)) (served l).
Proof.
  induction l as [|[r|] rest IH]; intros w;
    cbn [after_arrivals served map].
  - now rewrite app_nil_r.
  - rewrite IH. cbn [after_request set_pending sent env].
    now rewrite <- app_assoc.
  - now rewrite app_nil_r.
Qed.

Lemma after_arrivals_pending (l : list arrival) :
  forall w : world,
    pending w = l -> pending (after_arrivals l w) = left_over l.
Proof.
  induction l as [|[r|] rest IH]; intros w E;
    cbn [after_arrivals left_over].
  - exact E.
  - now apply IH.
  - reflexivity.
Qed.

(** ** [get_ip] and the script *)

Lemma get_ip_effect (w : world) :
  get_ip w
  = (Ret (discovered (net (env w))),
     set_trace (trace w ++ probe (net (env w))) w).
Proof.
  destruct w as [e c o er t l p h s].
  unfold get_ip, try_except, discovered, probe, socket_socket, connect,
    getsockname, close, bind, syscall_, modify, get, answer, any_exception,
    ret, raise, set_trace.
  cbn.
  destruct (on_socket (net e)); cbn; [reflexivity|].
  destruct (on_connect (net e)); cbn; [now rewrite <- app_assoc|].
  destruct (on_getsockname (net e)); cbn; [now rewrite <- !app_assoc|].
  destruct (on_close (net e)); cbn; now rewrite <- !app_assoc.
Qed.

Lemma probe_never_sends (n : network) : filter is_send (probe n) = [].
Proof.
  unfold probe.
  destruct (on_socket n), (on_connect n), (on_getsockname n); reflexivity.
Qed.

Lemma probe_never_binds (n : network) : filter is_bind (probe n) = [].
Proof.
  unfold probe.
  destruct (on_socket n), (on_connect n), (on_getsockname n); reflexivity.
Qed.

Ltac py_main :=
  unfold main, os_path_exists, os_chdir, os_getcwd, print, sys_exit, with_as,
    socketserver.TCPServer, socketserver.server_bind,
    socketserver.server_activate, socketserver.server_close,
    socketserver.serve_forever, try_except, syscall_, bind, get, modify,
    ret, raise, any_exception.

Lemma main_without_dist (w : world) :
  fs (env w) "dist" = None ->
  main w
  = (Raise (SystemExit 1),
     set_stdout
       (stdout w ++
        ["ERROR: dist folder not found. Run 'npm run build' first."]) w).
Proof.
  intros D. py_main. now rewrite D.
Qed.

Lemma main_dist_file (w : world) :
  fs (env w) "dist" = Some RegularFile ->
  main w
  = (Raise NotADirectoryError, set_trace (trace w ++ [SysChdir "dist"]) w).
Proof.
  intros D. py_main. rewrite D. cbn. now rewrite D.
Qed.

Lemma main_dist_locked (w : world) :
  fs (env w) "dist" = Some LockedDirectory ->
  main w
  = (Raise PermissionError, set_trace (trace w ++ [SysChdir "dist"]) w).
Proof.
  intros D. py_main. rewrite D. cbn. now rewrite D.
Qed.

Lemma main_started (w : world) (abspath : string) :
  fs (env w) "dist" = Some (Directory abspath) ->
  bind_fails (env w) = false ->
  main w
  = if interrupted (pending w)
    then (Raise (SystemExit 0),
          stopped (after_arrivals (pending w) (listening abspath w)))
    else (Block, after_arrivals (pending w) (listening abspath w)).
Proof.
  destruct w as [e c o er t l p h s]; cbn [env pending]; intros D B.
  py_main. cbn.
  repeat (progress (rewrite ?D, ?B, ?get_ip_effect, ?serve_effect; cbn)).
  unfold listening, announced, stopped, closed; cbn.
  rewrite <- !app_assoc; cbn.
  destruct (interrupted p); reflexivity.
Qed.

Lemma main_bind_fails (w : world) (abspath : string) :
  fs (env w) "dist" = Some (Directory abspath) ->
  bind_fails (env w) = true ->
  main w = (Raise OSError, unbound abspath w).
Proof.
  destruct w as [e c o er t l p h s]; cbn [env pending]; intros D B.
  py_main. cbn.
  repeat (progress (rewrite ?D, ?B, ?get_ip_effect; cbn)).
  unfold unbound, announced, closed; cbn.
  rewrite <- !app_assoc; cbn.
  reflexivity.
Qed.

(** ** How the process ends *)

Lemma run_without_dist (w : world) :
  fs (env w) "dist" = None ->
  run w
  = (Exited 1,
     set_stdout
       (stdout w ++
        ["ERROR: dist folder not found. Run 'npm run build' first."]) w).
Proof. intros D. unfold run. now rewrite (main_without_dist w D). Qed.

Lemma run_dist_file (w : world) :
  fs (env w) "dist" = Some RegularFile ->
  run w
  = (Crashed NotADirectoryError,
     set_trace (trace w ++ [SysChdir "dist"]) w).
Proof. intros D. unfold run. now rewrite (main_dist_file w D). Qed.

Lemma run_dist_locked (w : world) :
  fs (env w) "dist" = Some LockedDirectory ->
  run w
  = (Crashed PermissionError,
     set_trace (trace w ++ [SysChdir "dist"]) w).
Proof. intros D. unfold run. now rewrite (main_dist_locked w D). Qed.

Lemma run_started (w : world) (abspath : string) :
  fs (env w) "dist" = Some (Directory abspath) ->
  bind_fails (env w) = false ->
  run w
  = if interrupted (pending w)
    then (Exited 0,
          stopped (after_arrivals (pending w) (listening abspath w)))
    else (Serving, after_arrivals (pending w) (listening abspath w)).
Proof.
  intros D B. unfold run. rewrite (main_started w abspath D B).
  now destruct (interrupted (pending w)).
Qed.

Lemma run_bind_fails (w : world) (abspath : string) :
  fs (env w) "dist" = Some (Directory abspath) ->
  bind_fails (env w) = true ->
  run w = (Crashed OSError, unbound abspath w).
Proof. intros D B. unfold run. now rewrite (main_bind_fails w abspath D B). Qed.

Lemma sent_after_run (w : world) (abspath : string) :
  fs (env w) "dist" = Some (Directory abspath) ->
  bind_fails (env w) = false ->
  sent (snd (run w))
  = sent w ++ map (fun r => exchange Handler r w) (served (pending w)).
Proof.
  intros D B. rewrite (run_started w abspath D B).
  rewrite (map_ext _ _ (fun r => exchange_Handler r w)).
  destruct (interrupted (pending w)); cbn [snd stopped closed sent
    set_listeners set_trace set_stdout];
    now rewrite after_arrivals_sent.
Qed.

(** * The claims *)

(** X11. When nothing is named [dist] at startup, the program prints
    to standard output a diagnostic that names the missing directory
    and the build step that creates it, and exits with code 1; no call
    to the operating system has been made by then, so no listener was
    bound. *)
Theorem missing_dist_is_fatal (w : world) :
  fs (env w) "dist" = None ->
  run w
  = (Exited 1,
     set_stdout
       (stdout w ++
        ["ERROR: dist folder not found. Run 'npm run build' first."]) w)
  /\ contains "dist"
       "ERROR: dist folder not found. Run 'npm run build' first." = true
  /\ contains "npm run build"
       "ERROR: dist folder not found. Run 'npm run build' first." = true
  /\ trace (snd (run w)) = trace w
  /\ listeners (snd (run w)) = listeners w.
Proof.
  intros D. rewrite (run_without_dist w D).
  repeat split; reflexivity.
Qed.

Lemma missing_dist_is_fatal_witness :
  fst (run (Sample.process None Sample.net_up [Incoming Sample.index]))
  = Exited 1.
Proof.
  exact (f_equal fst
           (proj1 (missing_dist_is_fatal
                     (Sample.process None Sample.net_up
                        [Incoming Sample.index])
                     eq_refl))).
Defined.

(** C2. When [dist] names a regular file there is no serving-root
    directory, yet the process prints no diagnostic and does not leave
    through [sys.exit(1)]: the existence check passes, and the run ends
    on the [NotADirectoryError] of [os.chdir] with nothing printed and
    no listener bound. *)
Theorem dist_regular_file_gets_no_diagnostic (w : world) :
  fs (env w) "dist" = Some RegularFile ->
  fst (run w) = Crashed NotADirectoryError
  /\ fst (run w) <> Exited 1
  /\ stdout (snd (run w)) = stdout w
  /\ listeners (snd (run w)) = listeners w.
Proof.
  intros D. rewrite (run_dist_file w D).
  split; [reflexivity|]. split; [discriminate|]. split; reflexivity.
Qed.

Lemma dist_regular_file_gets_no_diagnostic_witness :
  fst (run (Sample.process (Some RegularFile) Sample.net_down
              [Incoming Sample.index]))
  = Crashed NotADirectoryError
  /\ stdout (snd (run (Sample.process (Some RegularFile) Sample.net_down
                         [Incoming Sample.index])))
     = [].
Proof.
  split.
  - exact (proj1 (dist_regular_file_gets_no_diagnostic
                    (Sample.process (Some RegularFile) Sample.net_down
                       [Incoming Sample.index])
                    eq_refl)).
  - exact (proj1 (proj2 (proj2 (dist_regular_file_gets_no_diagnostic
                                  (Sample.process (Some RegularFile)
                                     Sample.net_down
                                     [Incoming Sample.index])
                                  eq_refl)))).
Defined.

(** C3. When [dist] names a regular file, the existence check passes,
    [os.chdir] raises [NotADirectoryError], and the process dies with a
    traceback: it prints neither the diagnostic nor the serving root,
    and its working directory is unchanged. *)
Theorem dist_regular_file_passes_the_check :
  let w := Sample.process (Some RegularFile) Sample.net_up [] in
  fst (os_path_exists "dist" w) = Ret true
  /\ fst (run w) = Crashed NotADirectoryError
  /\ stdout (snd (run w)) = []
  /\ cwd (snd (run w)) = cwd w.
Proof. repeat split; reflexivity. Qed.

(** X2. When [dist] is a directory that the process may enter, the
    script does move there and prints the resolved path, whether the
    listener can be bound or not. *)
Lemma dist_directory_is_entered (w : world) (abspath : string) :
  fs (env w) "dist" = Some (Directory abspath) ->
  cwd (snd (run w)) = abspath
  /\ exists rest,
       stdout (snd (run w))
       = stdout w ++ ("Serving from: " ++ abspath)%string :: rest.
Proof.
  intros D. destruct (bind_fails (env w)) eqn:B.
  - rewrite (run_bind_fails w abspath D B).
    split; [reflexivity | now eexists].
  - rewrite (run_started w abspath D B).
    destruct (after_arrivals_frame (pending w) (listening abspath w))
      as (_ & C & _).
    pose proof (after_arrivals_stdout (pending w) (listening abspath w)) as S.
    cbn [listening announced stdout set_listeners set_trace] in S.
    rewrite <- app_assoc in S. cbn [app] in S.
    destruct (interrupted (pending w));
      cbn [snd stopped closed cwd stdout set_listeners set_trace set_stdout];
      rewrite C, S; (split; [reflexivity|]);
      rewrite <- ?app_assoc; cbn [app]; now eexists.
Qed.

(** C6. [get_ip] creates a datagram socket, connects it to 8.8.8.8:80,
    reads the local address and closes the socket, and returns that
    address; when one of the four calls fails it returns ["localhost"].
    In every case it returns normally, it sends nothing on the socket,
    and it changes nothing of the process but the record of the calls
    made: nothing is printed. *)
Theorem get_ip_probes_or_falls_back (w : world) :
  (forall ip port,
      on_socket (net (env w)) = None ->
      on_connect (net (env w)) = None ->
      on_getsockname (net (env w)) = inr (ip, port) ->
      on_close (net (env w)) = None ->
      get_ip w
      = (Ret ip,
         set_trace
           (trace w ++
            [SysSocket AF_INET SOCK_DGRAM; SysConnect "8.8.8.8" 80;
             SysGetsockname; SysClose]) w))
  /\ ((on_socket (net (env w)) <> None
       \/ on_connect (net (env w)) <> None
       \/ (exists e, on_getsockname (net (env w)) = inl e)
       \/ on_close (net (env w)) <> None) ->
      fst (get_ip w) = Ret "localhost")
  /\ exists ip calls,
       get_ip w = (Ret ip, set_trace (trace w ++ calls) w)
       /\ filter is_send calls = [].
Proof.
  rewrite get_ip_effect. unfold discovered, probe. repeat split.
  - intros ip port S C G X. now rewrite S, C, G, X.
  - intros [F | [F | [[e F] | F]]]; cbn [fst];
      destruct (on_socket (net (env w))), (on_connect (net (env w))),
        (on_getsockname (net (env w))), (on_close (net (env w)));
      try reflexivity; congruence.
  - exists (discovered (net (env w))), (probe (net (env w))).
    split; [reflexivity | apply probe_never_sends].
Qed.

Lemma get_ip_probes_or_falls_back_witness :
  get_ip (Sample.process Sample.dist Sample.net_up [])
  = (Ret "192.168.1.10",
     set_trace
       [SysSocket AF_INET SOCK_DGRAM; SysConnect "8.8.8.8" 80;
        SysGetsockname; SysClose]
       (Sample.process Sample.dist Sample.net_up []))
  /\ fst (get_ip (Sample.process Sample.dist Sample.net_down []))
     = Ret "localhost".
Proof.
  split.
  - exact (proj1 (get_ip_probes_or_falls_back
                    (Sample.process Sample.dist Sample.net_up []))
                 "192.168.1.10" 54321%Z eq_refl eq_refl eq_refl eq_refl).
  - apply (proj1 (proj2 (get_ip_probes_or_falls_back
                           (Sample.process Sample.dist Sample.net_down [])))).
    right; left. discriminate.
Defined.

(** C10. [get_ip] always returns a string and never raises: whatever
    exception one of the four socket calls raises, [KeyboardInterrupt]
    and [SystemExit] included, the result is ["localhost"]; and the
    script goes on to serve whatever the network did, so an interrupt
    during the discovery does not end the process. *)
Theorem get_ip_never_raises (w : world) :
  (exists ip, fst (get_ip w) = Ret ip)
  /\ (forall e,
         on_socket (net (env w)) = Some e
         \/ on_connect (net (env w)) = Some e
         \/ on_getsockname (net (env w)) = inl e
         \/ on_close (net (env w)) = Some e ->
         fst (get_ip w) = Ret "localhost")
  /\ (forall abspath,
         fs (env w) "dist" = Some (Directory abspath) ->
         bind_fails (env w) = false ->
         interrupted (pending w) = false ->
         fst (run w) = Serving).
Proof.
  repeat split.
  - rewrite get_ip_effect. now eexists.
  - intros e F. rewrite get_ip_effect. unfold discovered. cbn [fst].
    destruct F as [F | [F | [F | F]]];
      destruct (on_socket (net (env w))), (on_connect (net (env w))),
        (on_getsockname (net (env w))), (on_close (net (env w)));
      try reflexivity; congruence.
  - intros abspath D B I. rewrite (run_started w abspath D B). now rewrite I.
Qed.

Lemma get_ip_never_raises_witness :
  fst (get_ip (Sample.process Sample.dist Sample.net_interrupted []))
  = Ret "localhost"
  /\ fst (run (Sample.process Sample.dist Sample.net_interrupted []))
     = Serving.
Proof.
  split.
  - apply (proj1 (proj2 (get_ip_never_raises
                           (Sample.process Sample.dist
                              Sample.net_interrupted [])))
             KeyboardInterrupt).
    right; left. reflexivity.
  - apply (proj2 (proj2 (get_ip_never_raises
                           (Sample.process Sample.dist
                              Sample.net_interrupted [])))
             "/home/u/app/dist"); reflexivity.
Defined.

(** C5. Once the server has started, an interrupt makes the process
    print the shutdown notice as its last line and exit with code 0:
    the requests that arrived before it were answered, those after it
    stay unanswered, and the listener is closed. Without an interrupt
    the started server keeps serving. The process exits through
    [sys.exit] in these two ways only: with code 1 when [dist] is
    missing, and with code 0 after an interrupt of the started
    server. *)
Theorem interrupt_stops_the_server (w : world) :
  (forall abspath,
      fs (env w) "dist" = Some (Directory abspath) ->
      bind_fails (env w) = false ->
      interrupted (pending w) = true ->
      fst (run w) = Exited 0
      /\ (exists before,
             stdout (snd (run w))
             = before ++ [(LF ++ LF ++ "Server stopped")%string])
      /\ sent (snd (run w))
         = sent w ++ map (fun r => exchange Handler r w) (served (pending w))
      /\ pending (snd (run w)) = left_over (pending w)
      /\ ~ In ("", 8000%Z) (listeners (snd (run w))))
  /\ (forall abspath,
         fs (env w) "dist" = Some (Directory abspath) ->
         bind_fails (env w) = false ->
         interrupted (pending w) = false ->
         fst (run w) = Serving)
  /\ (forall code,
         fst (run w) = Exited code ->
         (code = 1%Z /\ fs (env w) "dist" = None)
         \/ (code = 0%Z
             /\ interrupted (pending w) = true
             /\ bind_fails (env w) = false
             /\ exists abspath, fs (env w) "dist" = Some (Directory abspath))).
Proof.
  split; [|split].
  - intros abspath D B I.
    pose proof (sent_after_run w abspath D B) as S.
    rewrite (run_started w abspath D B), I in S |- *.
    cbn [fst snd stopped closed stdout pending listeners set_listeners
         set_trace set_stdout].
    split; [reflexivity|]. split; [now eexists|]. split; [|split].
    + exact S.
    + now apply after_arrivals_pending.
    + intros F. apply filter_In in F. destruct F as [_ F]. discriminate F.
  - intros abspath D B I. rewrite (run_started w abspath D B). now rewrite I.
  - intros code E.
    destruct (fs (env w) "dist") as [[|abspath|]|] eqn:D.
    + rewrite (run_dist_file w D) in E. discriminate E.
    + destruct (bind_fails (env w)) eqn:B.
      * rewrite (run_bind_fails w abspath D B) in E. discriminate E.
      * rewrite (run_started w abspath D B) in E.
        destruct (interrupted (pending w)) eqn:I; [|discriminate E].
        right. inversion E. repeat split. now exists abspath.
    + rewrite (run_dist_locked w D) in E. discriminate E.
    + rewrite (run_without_dist w D) in E. inversion E. now left.
Qed.

Lemma interrupt_stops_the_server_witness :
  fst (run (Sample.process Sample.dist Sample.net_up
              [Incoming Sample.index; Interrupt; Incoming Sample.missing]))
  = Exited 0
  /\ pending (snd (run (Sample.process Sample.dist Sample.net_up
                          [Incoming Sample.index; Interrupt;
                           Incoming Sample.missing])))
     = [Incoming Sample.missing]
  /\ fst (run (Sample.process Sample.dist Sample.net_up
                 [Incoming Sample.index]))
     = Serving.
Proof.
  split; [|split].
  - apply (proj1 (interrupt_stops_the_server
                    (Sample.process Sample.dist Sample.net_up
                       [Incoming Sample.index; Interrupt;
                        Incoming Sample.missing]))
             "/home/u/app/dist" eq_refl eq_refl eq_refl).
  - apply (proj1 (interrupt_stops_the_server
                    (Sample.process Sample.dist Sample.net_up
                       [Incoming Sample.index; Interrupt;
                        Incoming Sample.missing]))
             "/home/u/app/dist" eq_refl eq_refl eq_refl).
  - apply (proj1 (proj2 (interrupt_stops_the_server
                           (Sample.process Sample.dist Sample.net_up
                              [Incoming Sample.index])))
             "/home/u/app/dist" eq_refl eq_refl eq_refl).
Defined.

(** ** The lines of a header block *)

Lemma length_append (s t : string) :
  String.length (s ++ t) = String.length s + String.length t.
Proof. induction s as [|c s IH]; cbn; [reflexivity | now rewrite IH]. Qed.

Lemma header_line_not_blank (kv : string * string) : header_line kv <> CRLF.
Proof.
  intros E. apply (f_equal String.length) in E.
  unfold header_line in E. rewrite !length_append in E. cbn in E. lia.
Qed.

Lemma head_not_blank (e : environment) (rep : reply) : ~ In CRLF (head e rep).
Proof.
  assert (S : forall code m, status_line code m <> CRLF)
    by (intros code m E; discriminate E).
  unfold head. destruct rep as [code hdrs body | code message page].
  - intros [F | [F | [F | F]]].
    + now apply (S code (reason code)).
    + now apply (header_line_not_blank ("Server", version e)).
    + now apply (header_line_not_blank ("Date", date_time e)).
    + apply in_map_iff in F. destruct F as (kv & F & _).
      now apply (header_line_not_blank kv).
  - intros [F | [F | [F | [F | F]]]].
    + now apply (S code (error_message code message)).
    + now apply (header_line_not_blank ("Server", version e)).
    + now apply (header_line_not_blank ("Date", date_time e)).
    + now apply (header_line_not_blank ("Connection", "close")).
    + destruct (BaseHTTPRequestHandler.has_body code); [|exact F].
      destruct F as [F | [F | []]];
        eapply header_line_not_blank; exact F.
Qed.

Lemma binds_after_run (w : world) (abspath : string) :
  fs (env w) "dist" = Some (Directory abspath) ->
  filter is_bind (trace (snd (run w)))
  = filter is_bind (trace w) ++ [SysBind "" 8000].
Proof.
  intros D. destruct (bind_fails (env w)) eqn:B.
  - rewrite (run_bind_fails w abspath D B).
    cbn [snd unbound closed announced trace set_trace set_listeners].
    rewrite <- !app_assoc, !filter_app. cbn [filter is_bind app].
    now rewrite probe_never_binds.
  - rewrite (run_started w abspath D B).
    assert (T : trace (after_arrivals (pending w) (listening abspath w))
                = trace w ++ SysChdir "dist" :: probe (net (env w)) ++
                  [SysSocket AF_INET SOCK_STREAM; SysBind "" 8000;
                   SysListen]).
    { destruct (after_arrivals_frame (pending w) (listening abspath w))
        as (_ & _ & _ & T & _).
      rewrite T. cbn. now rewrite <- app_assoc. }
    destruct (interrupted (pending w));
      cbn [snd stopped closed trace set_trace set_listeners set_stdout];
      rewrite T, ?filter_app; cbn [filter is_bind app];
      rewrite ?filter_app, probe_never_binds; cbn [filter is_bind app];
      now rewrite ?app_nil_r.
Qed.

(** C1, as amended. Every response that the started server sends
    while the [request_version] of the handler is other than
    ["HTTP/0.9"] carries the line
    [Cache-Control: no-store, no-cache, must-revalidate] in its header
    block, after the status line and the headers that the base handler
    sends for that request, which are all there unchanged; a response
    sent while the handler holds ["HTTP/0.9"] is the one of the base
    handler: it has no status line and no header. *)
Theorem responses_carry_cache_control (w : world) (abspath : string) :
  fs (env w) "dist" = Some (Directory abspath) ->
  bind_fails (env w) = false ->
  sent (snd (run w))
  = sent w ++ map (fun r => exchange Handler r w) (served (pending w))
  /\ forall r,
       (request_version (socketserver.new_handler r) <> "HTTP/0.9" ->
        exists headers body,
          ~ In CRLF headers
          /\ exchange SimpleHTTPRequestHandler.class_ r w
             = headers ++ CRLF :: body
          /\ exchange Handler r w
             = headers ++ Cache_Control :: CRLF :: body)
       /\ (request_version (socketserver.new_handler r) = "HTTP/0.9" ->
           exchange Handler r w
           = exchange SimpleHTTPRequestHandler.class_ r w
           /\ exchange Handler r w = payload r).
Proof.
  intros D B. split; [exact (sent_after_run w abspath D B)|].
  intros r. rewrite exchange_Handler, exchange_Simple, answer_of_mine,
    answer_of_base. unfold http09.
  cbn [socketserver.new_handler request_version]. split.
  - intros V. apply String.eqb_neq in V. rewrite V.
    exists (head (env w) (r_reply r)), (payload r).
    split; [apply head_not_blank | split; reflexivity].
  - intros V. apply String.eqb_eq in V. now rewrite V.
Qed.

Lemma responses_carry_cache_control_witness :
  sent (snd (run (Sample.process Sample.dist Sample.net_up
                    [Incoming Sample.index; Incoming Sample.missing])))
  = [exchange Handler Sample.index
       (Sample.process Sample.dist Sample.net_up
          [Incoming Sample.index; Incoming Sample.missing]);
     exchange Handler Sample.missing
       (Sample.process Sample.dist Sample.net_up
          [Incoming Sample.index; Incoming Sample.missing])].
Proof.
  exact (proj1 (responses_carry_cache_control
                  (Sample.process Sample.dist Sample.net_up
                     [Incoming Sample.index; Incoming Sample.missing])
                  "/home/u/app/dist" eq_refl eq_refl)).
Defined.

(** C1, as stated, fails: the response to a request line without a
    version, for which the handler holds ["HTTP/0.9"], is the file
    alone, without a [Cache-Control] header. *)
Lemma http09_response_has_no_header :
  sent (snd (run (Sample.process Sample.dist Sample.net_up
                    [Incoming Sample.simple])))
  = [["hello"]]
  /\ ~ In Cache_Control ["hello"].
Proof.
  split; [reflexivity|].
  intros [F | []]. discriminate F.
Qed.

(** The same holds for the error sent for a request line whose version
    is refused: the handler still holds ["HTTP/0.9"], and the client
    gets the error page alone. *)
Lemma refused_version_gets_no_header :
  sent (snd (run (Sample.process Sample.dist Sample.net_up
                    [Incoming Sample.unsupported])))
  = [["<html>505</html>"]].
Proof. reflexivity. Qed.

(** C9, as amended. While the [request_version] of the handler is
    other than ["HTTP/0.9"], the [end_headers] override sends the
    buffered headers unchanged, followed by exactly one more line, the
    [Cache-Control] one, and the blank line; while the handler holds
    ["HTTP/0.9"] it writes nothing, like the base method. In both
    cases it adds no header of cross-origin resource sharing to what
    the base method sends. *)
Theorem end_headers_adds_only_cache_control (w : world) :
  fst (MyHTTPRequestHandler.end_headers w) = Ret tt
  /\ (request_version (self w) <> "HTTP/0.9" ->
      wfile (self (snd (BaseHTTPRequestHandler.end_headers w)))
      = wfile (self w) ++ headers_buffer (self w) ++ [CRLF]
      /\ wfile (self (snd (MyHTTPRequestHandler.end_headers w)))
         = wfile (self w) ++ headers_buffer (self w)
           ++ [Cache_Control; CRLF])
  /\ (request_version (self w) = "HTTP/0.9" ->
      wfile (self (snd (BaseHTTPRequestHandler.end_headers w)))
      = wfile (self w)
      /\ wfile (self (snd (MyHTTPRequestHandler.end_headers w)))
         = wfile (self w))
  /\ filter is_cors (wfile (self (snd (MyHTTPRequestHandler.end_headers w))))
     = filter is_cors
         (wfile (self (snd (BaseHTTPRequestHandler.end_headers w)))).
Proof.
  rewrite my_end_headers_effect, base_end_headers_effect.
  cbn [fst snd self set_self]. unfold my_end.
  assert (V : view (self w)
              = (request_version (self w), command (self w),
                 headers_buffer (self w), wfile (self w))) by reflexivity.
  pose proof (view_flush _ _ _ _ _ V) as VB.
  pose proof (view_add_header _ _ _ _ _ V
                "Cache-Control" "no-store, no-cache, must-revalidate") as VA.
  pose proof (view_flush _ _ _ _ _ VA) as VM.
  rewrite (view_wfile _ _ _ _ _ VB), (view_wfile _ _ _ _ _ VM).
  split; [reflexivity|].
  destruct (request_version (self w) =? "HTTP/0.9")%string eqn:E;
    cbn [negb].
  - apply String.eqb_eq in E.
    split; [intros N; contradiction|].
    split; [intros _; split; reflexivity | reflexivity].
  - apply String.eqb_neq in E.
    split; [intros _; split; [reflexivity | now rewrite <- app_assoc]|].
    split; [intros N; contradiction|].
    rewrite <- app_assoc, !filter_app. reflexivity.
Qed.

Lemma end_headers_adds_only_cache_control_witness :
  wfile (self (snd (MyHTTPRequestHandler.end_headers
                      (Sample.answering "HTTP/1.1"))))
  = [] ++ [status_line 200 "OK"; header_line ("Content-Length", "5")]
    ++ [Cache_Control; CRLF].
Proof.
  apply (proj1 (proj2 (end_headers_adds_only_cache_control
                         (Sample.answering "HTTP/1.1")))).
  discriminate.
Defined.

(** C9, as stated, fails: for a handler that holds ["HTTP/0.9"] the
    override adds no header to what the base method writes. *)
Lemma end_headers_adds_nothing_to_http09 :
  wfile (self (snd (MyHTTPRequestHandler.end_headers
                      (Sample.answering "HTTP/0.9"))))
  = wfile (self (snd (BaseHTTPRequestHandler.end_headers
                        (Sample.answering "HTTP/0.9"))))
  /\ List.length (wfile (self (snd (MyHTTPRequestHandler.end_headers
                                 (Sample.answering "HTTP/0.9")))))
     <> List.length (wfile (self (snd (BaseHTTPRequestHandler.end_headers
                                    (Sample.answering "HTTP/0.9"))))) + 1.
Proof. split; [reflexivity | discriminate]. Qed.

(** C4, as amended. For every request it handles the server prints one
    line on standard output for each log event of the base handler, and
    writes nothing to standard error: for a response sent with
    [send_response] the one line of the access log, with the time, the
    request line, the status and the size [-]; for an error response
    two lines, the error notice and then the line of the access log.
    The base handler writes as many entries to standard error, so no
    log event is lost. *)
Theorem one_log_line_per_log_event (a : string * Z) (r : request)
    (w : world) :
  fst (socketserver._handle_request_noblock
         (socketserver.mkServer a Handler) r w) = Ret tt
  /\ stderr (snd (socketserver._handle_request_noblock
                    (socketserver.mkServer a Handler) r w))
     = stderr w
  /\ stdout (snd (socketserver._handle_request_noblock
                    (socketserver.mkServer a SimpleHTTPRequestHandler.class_)
                    r w))
     = stdout w
  /\ match r_reply r with
     | Respond code _ _ =>
         stdout (snd (socketserver._handle_request_noblock
                        (socketserver.mkServer a Handler) r w))
         = stdout w ++
           [("[" ++ log_date_time (env w) ++ "] " ++ DQUOTE ++ r_line r
             ++ DQUOTE ++ " " ++ str_int code ++ " -")%string]
         /\ List.length
              (stderr (snd (socketserver._handle_request_noblock
                              (socketserver.mkServer a
                                 SimpleHTTPRequestHandler.class_) r w)))
            = List.length (stderr w) + 1
     | Fail code message _ =>
         stdout (snd (socketserver._handle_request_noblock
                        (socketserver.mkServer a Handler) r w))
         = stdout w ++
           [("[" ++ log_date_time (env w) ++ "] code " ++ str_int code
             ++ ", message " ++ error_message code message)%string;
            ("[" ++ log_date_time (env w) ++ "] " ++ DQUOTE ++ r_line r
             ++ DQUOTE ++ " " ++ str_int code ++ " -")%string]
         /\ List.length
              (stderr (snd (socketserver._handle_request_noblock
                              (socketserver.mkServer a
                                 SimpleHTTPRequestHandler.class_) r w)))
            = List.length (stderr w) + 2
     end.
Proof.
  rewrite handle_request_Handler, handle_request_Simple.
  cbn [fst snd after_request after_request_base stdout stderr].
  repeat (split; [reflexivity|]).
  unfold log_lines.
  destruct (r_reply r) as [code hdrs body | code message page];
    cbn [log_events map]; rewrite length_app; split; reflexivity.
Qed.

(** C4, as stated, fails: a request for a missing file gets two log
    lines. *)
Lemma failed_request_logs_two_lines :
  List.length
    (stdout
       (snd (socketserver._handle_request_noblock
               (socketserver.mkServer ("", PORT) Handler) Sample.missing
               (Sample.process Sample.dist Sample.net_up []))))
  = 2
  /\ r_reply Sample.missing = Fail 404 (Some "File not found")
                                "<html>nope</html>".
Proof. split; reflexivity. Qed.

(** C7, as amended. The banner of the started server has the title
    line, the local URL [http://localhost:8000/], the network URL with
    the address that [get_ip] returns and the port 8000, and the hint
    on how to stop; the port shown is the one of the only [bind] call
    the process makes. The banner shows these two URLs. *)
Theorem banner_is_accurate (w : world) (abspath ip : string) :
  fs (env w) "dist" = Some (Directory abspath) ->
  bind_fails (env w) = false ->
  fst (get_ip w) = Ret ip ->
  (exists rest,
      stdout (snd (run w))
      = stdout w ++
        [("Serving from: " ++ abspath)%string;
         "============================================================";
         " Formansbil Kalkylator - Python Server";
         "============================================================";
         " Server running at: http://localhost:8000/";
         (" Network: http://" ++ ip ++ ":8000/")%string;
         "============================================================";
         "Press Ctrl+C to stop the server";
         ""] ++ rest)
  /\ filter is_bind (trace (snd (run w)))
     = filter is_bind (trace w) ++ [SysBind "" 8000]
  /\ PORT = 8000%Z.
Proof.
  intros D B G. rewrite get_ip_effect in G. cbn [fst] in G.
  injection G as G. split; [|split; [exact (binds_after_run w abspath D)
                                    | reflexivity]].
  rewrite (run_started w abspath D B).
  assert (S : stdout (after_arrivals (pending w) (listening abspath w))
              = (stdout w ++
                 ("Serving from: " ++ abspath)%string :: banner ip)
                ++ flat_map (log_lines (env w)) (served (pending w))).
  { rewrite after_arrivals_stdout. cbn. now rewrite G. }
  destruct (interrupted (pending w));
    cbn [snd stopped closed stdout set_listeners set_trace set_stdout];
    rewrite S, <- ?app_assoc; eexists; cbn [app banner]; reflexivity.
Qed.

Lemma banner_is_accurate_witness :
  exists rest,
    stdout (snd (run (Sample.process Sample.dist Sample.net_up [])))
    = [] ++
      ["Serving from: /home/u/app/dist";
       "============================================================";
       " Formansbil Kalkylator - Python Server";
       "============================================================";
       " Server running at: http://localhost:8000/";
       " Network: http://192.168.1.10:8000/";
       "============================================================";
       "Press Ctrl+C to stop the server";
       ""] ++ rest.
Proof.
  exact (proj1 (banner_is_accurate
                  (Sample.process Sample.dist Sample.net_up [])
                  "/home/u/app/dist" "192.168.1.10"
                  eq_refl eq_refl eq_refl)).
Defined.

(** C7, as stated, fails: the banner shows two URLs, not three. *)
Lemma banner_shows_two_urls :
  urls (stdout (snd (run (Sample.process Sample.dist Sample.net_up []))))
  = 2
  /\ urls (stdout (snd (run (Sample.process Sample.dist Sample.net_up []))))
     <> 3.
Proof. split; [reflexivity | discriminate]. Qed.



(** * Further properties of the script *)

Lemma discovered_localhost (n : network) :
  on_socket n <> None
  \/ on_connect n <> None
  \/ (exists e, on_getsockname n = inl e)
  \/ on_close n <> None ->
  discovered n = "localhost".
Proof.
  unfold discovered. intros [F | [F | [[e F] | F]]];
    destruct (on_socket n), (on_connect n), (on_getsockname n), (on_close n);
    try reflexivity; congruence.
Qed.

Lemma stdout_started (w : world) (abspath : string) :
  fs (env w) "dist" = Some (Directory abspath) ->
  bind_fails (env w) = false ->
  stdout (snd (run w))
  = stdout w ++
    ("Serving from: " ++ abspath)%string
    :: banner (discovered (net (env w))) ++
       flat_map (log_lines (env w)) (served (pending w)) ++
       (if interrupted (pending w)
        then [(LF ++ LF ++ "Server stopped")%string] else []).
Proof.
  intros D B. rewrite (run_started w abspath D B).
  pose proof (after_arrivals_stdout (pending w) (listening abspath w)) as S.
  cbn [listening announced stdout env set_listeners set_trace] in S.
  destruct (interrupted (pending w));
    cbn [snd stopped closed stdout set_listeners set_trace set_stdout];
    rewrite S, <- ?app_assoc; cbn [app]; rewrite ?app_nil_r;
    rewrite <- ?app_assoc; reflexivity.
Qed.

(** How the process ends, by the entry [dist], the port and the
    interrupt. *)
Lemma outcome_of_the_script (w : world) :
  fst (run w)
  = match fs (env w) "dist" with
    | None => Exited 1
    | Some RegularFile => Crashed NotADirectoryError
    | Some LockedDirectory => Crashed PermissionError
    | Some (Directory _) =>
        if bind_fails (env w) then Crashed OSError
        else if interrupted (pending w) then Exited 0
        else Serving
    end.
Proof.
  destruct (fs (env w) "dist") as [[|abspath|]|] eqn:D.
  - now rewrite (run_dist_file w D).
  - destruct (bind_fails (env w)) eqn:B.
    + now rewrite (run_bind_fails w abspath D B).
    + rewrite (run_started w abspath D B).
      now destruct (interrupted (pending w)).
  - now rewrite (run_dist_locked w D).
  - now rewrite (run_without_dist w D).
Qed.

(** X1. Neither what the network answers to the address discovery nor
    the requests that arrive change how the process ends: two runs
    that differ in these only, and agree on whether an interrupt
    arrives, end alike. *)
Theorem outcome_ignores_network_and_requests (w : world) (n : network)
    (p : list arrival) :
  interrupted p = interrupted (pending w) ->
  fst (run (with_net n (set_pending p w))) = fst (run w).
Proof.
  intros I. rewrite !outcome_of_the_script.
  cbn [with_net set_pending env pending fs bind_fails]. now rewrite I.
Qed.

Lemma outcome_ignores_network_and_requests_witness :
  fst (run (with_net Sample.net_down
              (set_pending [Incoming Sample.missing; Incoming Sample.simple]
                 (Sample.process Sample.dist Sample.net_up
                    [Incoming Sample.index]))))
  = fst (run (Sample.process Sample.dist Sample.net_up
                [Incoming Sample.index])).
Proof.
  exact (outcome_ignores_network_and_requests
           (Sample.process Sample.dist Sample.net_up [Incoming Sample.index])
           Sample.net_down
           [Incoming Sample.missing; Incoming Sample.simple]
           eq_refl).
Defined.

Lemma dist_directory_is_entered_witness :
  cwd (snd (run (Sample.process Sample.dist Sample.net_down
                   [Incoming Sample.missing; Interrupt])))
  = "/home/u/app/dist".
Proof.
  exact (proj1 (dist_directory_is_entered
                  (Sample.process Sample.dist Sample.net_down
                     [Incoming Sample.missing; Interrupt])
                  "/home/u/app/dist" eq_refl)).
Defined.

(** X3. The address discovery runs exactly once in a run that enters
    the directory [dist], and never in a run that does not: a missing
    [dist], a file of that name, or a directory that the process may
    not enter ends the process before any socket is created. *)
Theorem discovery_runs_once (w : world) :
  filter is_dgram (trace (snd (run w)))
  = filter is_dgram (trace w) ++
    match fs (env w) "dist" with
    | Some (Directory _) => [SysSocket AF_INET SOCK_DGRAM]
    | _ => []
    end.
Proof.
  assert (P : filter is_dgram (probe (net (env w)))
              = [SysSocket AF_INET SOCK_DGRAM]).
  { unfold probe.
    destruct (on_socket (net (env w))), (on_connect (net (env w))),
      (on_getsockname (net (env w))); reflexivity. }
  destruct (fs (env w) "dist") as [[|abspath|]|] eqn:D.
  - rewrite (run_dist_file w D). cbn [snd trace set_trace].
    now rewrite filter_app.
  - destruct (bind_fails (env w)) eqn:B.
    + rewrite (run_bind_fails w abspath D B).
      cbn [snd unbound closed announced trace set_trace set_listeners].
      rewrite !filter_app. cbn [filter is_dgram]. rewrite P.
      cbn [app]. now rewrite !app_nil_r.
    + rewrite (run_started w abspath D B).
      destruct (after_arrivals_frame (pending w) (listening abspath w))
        as (_ & _ & _ & T & _).
      destruct (interrupted (pending w));
        cbn [snd stopped closed trace set_trace set_listeners set_stdout];
        rewrite T; cbn [listening announced trace set_trace set_listeners];
        rewrite !filter_app; cbn [filter is_dgram]; rewrite P;
        cbn [app]; now rewrite !app_nil_r.
  - rewrite (run_dist_locked w D). cbn [snd trace set_trace].
    now rewrite filter_app.
  - rewrite (run_without_dist w D). cbn [snd trace set_stdout].
    now rewrite app_nil_r.
Qed.

(** X5. When the discovery fails at any of its four calls, the banner
    of a run that finds [dist] gives [http://localhost:8000/] as the
    network URL, the same URL as the local one. *)
Theorem fallback_banner_shows_localhost (w : world) (abspath : string) :
  fs (env w) "dist" = Some (Directory abspath) ->
  on_socket (net (env w)) <> None
  \/ on_connect (net (env w)) <> None
  \/ (exists e, on_getsockname (net (env w)) = inl e)
  \/ on_close (net (env w)) <> None ->
  In " Network: http://localhost:8000/" (stdout (snd (run w)))
  /\ In " Server running at: http://localhost:8000/"
       (stdout (snd (run w))).
Proof.
  intros D F. apply discovered_localhost in F.
  assert (S : exists rest,
             stdout (snd (run w))
             = stdout w ++
               ("Serving from: " ++ abspath)%string
               :: banner "localhost" ++ rest).
  { destruct (bind_fails (env w)) eqn:B.
    - rewrite (run_bind_fails w abspath D B).
      cbn [snd unbound closed announced stdout set_trace set_listeners].
      rewrite F. exists []. now rewrite app_nil_r.
    - rewrite (stdout_started w abspath D B), F. now eexists. }
  destruct S as [rest S]. rewrite S.
  split; apply in_or_app; right; cbn; tauto.
Qed.

Lemma fallback_banner_shows_localhost_witness :
  In " Network: http://localhost:8000/"
     (stdout (snd (run (Sample.process Sample.dist Sample.net_down
                          [Incoming Sample.index])))).
Proof.
  refine (proj1 (fallback_banner_shows_localhost
                   (Sample.process Sample.dist Sample.net_down
                      [Incoming Sample.index])
                   "/home/u/app/dist" eq_refl _)).
  right; left; discriminate.
Defined.

(** X6. The banner is printed before the listener is bound: when the
    port cannot be bound the process has already announced the two
    URLs, then dies on [OSError] without the shutdown notice, having
    answered no request and leaving no listener. *)
Theorem taken_port_crashes_after_banner (w : world) (abspath ip : string) :
  fs (env w) "dist" = Some (Directory abspath) ->
  bind_fails (env w) = true ->
  fst (get_ip w) = Ret ip ->
  fst (run w) = Crashed OSError
  /\ stdout (snd (run w))
     = stdout w ++
       [("Serving from: " ++ abspath)%string;
        "============================================================";
        " Formansbil Kalkylator - Python Server";
        "============================================================";
        " Server running at: http://localhost:8000/";
        (" Network: http://" ++ ip ++ ":8000/")%string;
        "============================================================";
        "Press Ctrl+C to stop the server";
        ""]
  /\ sent (snd (run w)) = sent w
  /\ pending (snd (run w)) = pending w
  /\ ~ In ("", 8000%Z) (listeners (snd (run w))).
Proof.
  intros D B G. rewrite get_ip_effect in G. cbn [fst] in G.
  injection G as G. rewrite (run_bind_fails w abspath D B).
  cbn [fst snd unbound closed announced stdout sent pending listeners
       set_trace set_listeners].
  rewrite G. repeat split.
  intros F. apply filter_In in F. destruct F as [_ F]. discriminate F.
Qed.

Lemma taken_port_crashes_after_banner_witness :
  fst (run (with_port_taken
              (Sample.process Sample.dist Sample.net_up
                 [Incoming Sample.index; Interrupt])))
  = Crashed OSError.
Proof.
  exact (proj1 (taken_port_crashes_after_banner
                  (with_port_taken
                     (Sample.process Sample.dist Sample.net_up
                        [Incoming Sample.index; Interrupt]))
                  "/home/u/app/dist" "192.168.1.10"
                  eq_refl eq_refl eq_refl)).
Defined.

(** X7. The log line of [MyHTTPRequestHandler] does not tell the client:
    the same request from another address leaves the same lines on
    standard output, and gets the same response. *)
Theorem log_line_ignores_client (a : string * Z) (client : string)
    (r : request) (w : world) :
  stdout (snd (socketserver._handle_request_noblock
                 (socketserver.mkServer a Handler) (from_client client r) w))
  = stdout (snd (socketserver._handle_request_noblock
                   (socketserver.mkServer a Handler) r w))
  /\ sent (snd (socketserver._handle_request_noblock
                  (socketserver.mkServer a Handler) (from_client client r) w))
     = sent (snd (socketserver._handle_request_noblock
                    (socketserver.mkServer a Handler) r w)).
Proof.
  rewrite !handle_request_Handler.
  cbn [snd after_request stdout sent]. rewrite !answer_of_mine.
  split; reflexivity.
Qed.

(** X8. The standard output of a run of the started server is, in this
    order: the serving root, the banner, the log lines of the requests
    that arrived before the interrupt, in their order of arrival, and
    the shutdown notice if the interrupt came. *)
Theorem output_of_a_run (w : world) (abspath ip : string) :
  fs (env w) "dist" = Some (Directory abspath) ->
  bind_fails (env w) = false ->
  fst (get_ip w) = Ret ip ->
  stdout (snd (run w))
  = stdout w ++
    ("Serving from: " ++ abspath)%string
    :: banner ip ++
       flat_map (log_lines (env w)) (served (pending w)) ++
       (if interrupted (pending w)
        then [(LF ++ LF ++ "Server stopped")%string] else []).
Proof.
  intros D B G. rewrite get_ip_effect in G. cbn [fst] in G.
  injection G as G.
  rewrite (stdout_started w abspath D B). now rewrite G.
Qed.

Lemma output_of_a_run_witness :
  stdout (snd (run (Sample.process Sample.dist Sample.net_up
                      [Incoming Sample.index; Incoming Sample.missing;
                       Interrupt])))
  = [] ++
    "Serving from: /home/u/app/dist"
    :: banner "192.168.1.10" ++
       flat_map (log_lines (Sample.environment_ Sample.dist Sample.net_up))
         [Sample.index; Sample.missing] ++
       [(LF ++ LF ++ "Server stopped")%string].
Proof.
  exact (output_of_a_run
           (Sample.process Sample.dist Sample.net_up
              [Incoming Sample.index; Incoming Sample.missing; Interrupt])
           "/home/u/app/dist" "192.168.1.10"
           eq_refl eq_refl eq_refl).
Defined.

Lemma add_cache_control (h : handler) :
  add_header "Cache-Control" "no-store, no-cache, must-revalidate" h
  = if BaseHTTPRequestHandler.buffers h
    then set_headers_buffer (headers_buffer h ++ [Cache_Control]) h
    else h.
Proof. reflexivity. Qed.

(** X9. The [end_headers] override touches nothing but the header
    buffer and the bytes written to the client: it prints and logs
    nothing, makes no system call, and leaves the keep-alive decision
    of the connection as it was; the buffer is empty afterwards, unless
    the request is HTTP/0.9 and nothing was flushed. *)
Theorem end_headers_keeps_the_connection_state (w : world) :
  stdout (snd (MyHTTPRequestHandler.end_headers w)) = stdout w
  /\ stderr (snd (MyHTTPRequestHandler.end_headers w)) = stderr w
  /\ trace (snd (MyHTTPRequestHandler.end_headers w)) = trace w
  /\ sent (snd (MyHTTPRequestHandler.end_headers w)) = sent w
  /\ close_connection (self (snd (MyHTTPRequestHandler.end_headers w)))
     = close_connection (self w)
  /\ headers_buffer (self (snd (MyHTTPRequestHandler.end_headers w)))
     = if (request_version (self w) =? "HTTP/0.9")%string
       then headers_buffer (self w) else [].
Proof.
  rewrite my_end_headers_effect.
  cbn [snd self set_self stdout stderr trace sent].
  unfold my_end. rewrite add_cache_control. unfold flush.
  unfold BaseHTTPRequestHandler.buffers.
  destruct (request_version (self w) =? "HTTP/0.9")%string eqn:E;
    cbn [negb set_headers_buffer request_version]; rewrite ?E;
    cbn [negb]; repeat split; reflexivity.
Qed.

(** X10. The override is not idempotent: while the [request_version]
    of the handler is other than ["HTTP/0.9"], every call of
    [end_headers] sends the [Cache-Control] line and a blank line, so a
    second call on the same response writes them again after the
    header block. *)
Theorem end_headers_twice (w : world) :
  request_version (self w) <> "HTTP/0.9" ->
  wfile (self (snd ((MyHTTPRequestHandler.end_headers ;;
                     MyHTTPRequestHandler.end_headers) w)))
  = wfile (self w) ++ headers_buffer (self w)
    ++ [Cache_Control; CRLF; Cache_Control; CRLF].
Proof.
  intros N. apply String.eqb_neq in N.
  rewrite (bind_Ret _ _ _ _ _ (my_end_headers_effect w)).
  rewrite my_end_headers_effect. cbn [snd self set_self]. unfold my_end.
  assert (V : view (self w)
              = (request_version (self w), command (self w),
                 headers_buffer (self w), wfile (self w))) by reflexivity.
  pose proof (view_add_header _ _ _ _ _ V
                "Cache-Control" "no-store, no-cache, must-revalidate") as V1.
  pose proof (view_flush _ _ _ _ _ V1) as V2.
  pose proof (view_add_header _ _ _ _ _ V2
                "Cache-Control" "no-store, no-cache, must-revalidate") as V3.
  pose proof (view_flush _ _ _ _ _ V3) as V4.
  rewrite (view_wfile _ _ _ _ _ V4), N. cbn [negb app].
  rewrite <- !app_assoc. reflexivity.
Qed.

Lemma end_headers_twice_witness :
  wfile (self (snd ((MyHTTPRequestHandler.end_headers ;;
                     MyHTTPRequestHandler.end_headers)
                      (Sample.answering "HTTP/1.1"))))
  = [] ++ [status_line 200 "OK"; header_line ("Content-Length", "5")]
    ++ [Cache_Control; CRLF; Cache_Control; CRLF].
Proof.
  apply (end_headers_twice (Sample.answering "HTTP/1.1")).
  discriminate.
Defined.
